(** * dspace-angular: browse-by-metadata page and submission form bootstrap

    A shallow embedding of

    - [src/app/browse-by/browse-by-metadata-page/browse-by-metadata-page.component.ts]
      (class [BrowseByMetadataPageComponent] and [browseParamsToOptions]);
    - the [SubmissionSubmitFormComponent] class that sits in
      [src/app/submission/objects/submission-objects.effects.ts].

    Component fields become record fields, methods become computations in a
    small state monad over the component and the collaborators it talks
    to, and every call on a collaborator is appended to a call log, so that
    "no fetch is attempted" is a statement about that log.  Observables are
    the finite sequence of values they deliver. *)

From Stdlib Require Import ZArith Ascii String List Bool Lia.
From Stdlib Require Import Floats.SpecFloat.
From stdpp Require Import base option list strings gmap.

Import ListNotations.
Local Open Scope string_scope.
Local Open Scope list_scope.

(** ** The JavaScript values the two components handle *)

Module Js.

(** A [number] is an IEEE-754 binary64 value. *)
Definition prec : Z := 53.
Definition emax : Z := 1024.
Definition number : Type := spec_float.

Inductive Value : Type :=
| Undefined
| Null
| Str (s : string)
| Num (n : number).

Definition number_eqb (a b : number) : bool :=
  match a, b with
  | S754_zero s, S754_zero s' => Bool.eqb s s'
  | S754_infinity s, S754_infinity s' => Bool.eqb s s'
  | S754_nan, S754_nan => true
  | S754_finite s m e, S754_finite s' m' e' =>
      Bool.eqb s s' && Pos.eqb m m' && Z.eqb e e'
  | _, _ => false
  end.

#[export] Instance number_eq_dec : EqDecision number.
Proof. solve_decision. Defined.

#[export] Instance Value_eq_dec : EqDecision Value.
Proof. solve_decision. Defined.

Definition isNaN (n : number) : bool :=
  match n with S754_nan => true | _ => false end.

Definition isZero (n : number) : bool :=
  match n with S754_zero _ => true | _ => false end.

(** *** StringToNumber

    Strings are sequences of code units below 256, one [ascii] each.  The
    grammar is StringNumericLiteral of ECMAScript: optional white space
    around nothing (the value is +0), a signed decimal literal, a signed
    [Infinity], or an unsigned binary, octal or hexadecimal integer. *)

Definition isStrWhiteSpaceChar (c : ascii) : bool :=
  let n := N_of_ascii c in
  ((9 <=? n) && (n <=? 13) || (n =? 32) || (n =? 160))%N.

Fixpoint trimStart (l : list ascii) : list ascii :=
  match l with
  | c :: l' => if isStrWhiteSpaceChar c then trimStart l' else l
  | [] => []
  end.

Definition trim (l : list ascii) : list ascii :=
  rev (trimStart (rev (trimStart l))).

Definition digitValue (radix : N) (c : ascii) : option N :=
  let n := N_of_ascii c in
  let v :=
    if ((48 <=? n) && (n <=? 57))%N then Some (n - 48)%N
    else if ((97 <=? n) && (n <=? 102))%N then Some (n - 87)%N
    else if ((65 <=? n) && (n <=? 70))%N then Some (n - 55)%N
    else None in
  match v with
  | Some d => if (d <? radix)%N then Some d else None
  | None => None
  end.

(** The longest prefix of digits in [radix], most significant first,
    together with what follows it. *)
Fixpoint spanDigits (radix : N) (l : list ascii) : list N * list ascii :=
  match l with
  | c :: l' =>
      match digitValue radix c with
      | Some d => let '(ds, rest) := spanDigits radix l' in (d :: ds, rest)
      | None => ([], l)
      end
  | [] => ([], [])
  end.

Definition digitsValue (radix : N) (ds : list N) : N :=
  fold_left (fun acc d => acc * radix + d)%N ds 0%N.

(** Round the real number [m * 10 ^ e] to the nearest binary64, ties to
    even.  A negative exponent is an exact integer division whose
    remainder decides the rounding. *)
Definition roundDecimal (neg : bool) (m : positive) (e : Z) : number :=
  match e with
  | Zneg p =>
      let '(q, e', l) :=
        SFdiv_core_binary prec emax (Zpos m) 0 (Z.pow 10 (Zpos p)) 0 in
      binary_round_aux prec emax neg q e' l
  | _ => binary_round prec emax neg (Z.to_pos (Zpos m * Z.pow 10 e)) 0
  end.

Definition roundInteger (n : N) : number :=
  match n with
  | N0 => S754_zero false
  | Npos p => binary_round prec emax false p 0
  end.

(** ExponentPart: [e] or [E], an optional sign and at least one digit;
    nothing may follow it.  [None] is a syntax error. *)
Definition parseExponent (l : list ascii) : option Z :=
  match l with
  | [] => Some 0%Z
  | c :: l' =>
      if (N_of_ascii c =? 101)%N || (N_of_ascii c =? 69)%N then
        let '(sgn, l'') :=
          match l' with
          | s :: r =>
              if (N_of_ascii s =? 43)%N then (false, r)
              else if (N_of_ascii s =? 45)%N then (true, r)
              else (false, l')
          | [] => (false, l')
          end in
        match spanDigits 10 l'' with
        | ((_ :: _) as ds, []) =>
            let v := Z.of_N (digitsValue 10 ds) in
            Some (if sgn then (- v)%Z else v)
        | _ => None
        end
      else None
  end.

(** StrUnsignedDecimalLiteral without the [Infinity] alternative. *)
Definition parseUnsignedDecimal (neg : bool) (l : list ascii) : number :=
  let '(ip, r1) := spanDigits 10 l in
  let '(dot, fp, r2) :=
    match r1 with
    | c :: r =>
        if (N_of_ascii c =? 46)%N
        then let '(fp, r2) := spanDigits 10 r in (true, fp, r2)
        else (false, [], r1)
    | [] => (false, [], r1)
    end in
  match ip, fp with
  | [], [] => S754_nan
  | _, _ =>
      match parseExponent r2 with
      | None => S754_nan
      | Some ex =>
          match digitsValue 10 (ip ++ fp) with
          | N0 => S754_zero neg
          | Npos m => roundDecimal neg m (ex - Z.of_nat (length fp))
          end
      end
  end.

Definition parseStrDecimalLiteral (l : list ascii) : number :=
  let '(neg, body) :=
    match l with
    | c :: r =>
        if (N_of_ascii c =? 43)%N then (false, r)
        else if (N_of_ascii c =? 45)%N then (true, r)
        else (false, l)
    | [] => (false, l)
    end in
  if decide (body = list_ascii_of_string "Infinity")
  then S754_infinity neg
  else parseUnsignedDecimal neg body.

Definition parseNonDecimal (radix : N) (l : list ascii) : number :=
  match spanDigits radix l with
  | ((_ :: _) as ds, []) => roundInteger (digitsValue radix ds)
  | _ => S754_nan
  end.

Definition StringToNumber (s : string) : number :=
  match trim (list_ascii_of_string s) with
  | [] => S754_zero false
  | (c0 :: c1 :: r) as l =>
      if (N_of_ascii c0 =? 48)%N then
        let n := N_of_ascii c1 in
        if (n =? 120)%N || (n =? 88)%N then parseNonDecimal 16 r
        else if (n =? 111)%N || (n =? 79)%N then parseNonDecimal 8 r
        else if (n =? 98)%N || (n =? 66)%N then parseNonDecimal 2 r
        else parseStrDecimalLiteral l
      else parseStrDecimalLiteral l
  | l => parseStrDecimalLiteral l
  end.

(** *** The abstract operations the source uses implicitly *)

Definition ToNumber (v : Value) : number :=
  match v with
  | Undefined => S754_nan
  | Null => S754_zero false
  | Str s => StringToNumber s
  | Num n => n
  end.

Definition ToBoolean (v : Value) : bool :=
  match v with
  | Undefined | Null => false
  | Str s => negb (String.eqb s "")
  | Num n => negb (isNaN n || isZero n)
  end.

(** Unary [+v]. *)
Definition plus (v : Value) : Value := Num (ToNumber v).

(** [a || b]. *)
Definition or (a b : Value) : Value := if ToBoolean a then a else b.

(** Strict equality [a === b]: NaN differs from itself and the two
    zeros are equal. *)
Definition strictEq (a b : Value) : bool :=
  match a, b with
  | Undefined, Undefined | Null, Null => true
  | Str s, Str s' => String.eqb s s'
  | Num n, Num n' =>
      match n, n' with
      | S754_nan, _ | _, S754_nan => false
      | S754_zero _, S754_zero _ => true
      | _, _ => number_eqb n n'
      end
  | _, _ => false
  end.

End Js.

(** *** Numeric strings *)

(** A numeric string is one that [Number] does not turn into NaN; the
    [+x || x] of the source keeps the number when it is neither NaN nor a
    zero. *)
Definition isNumeric (s : string) : bool := negb (Js.isNaN (Js.StringToNumber s)).

Definition isNonZeroNumeric (s : string) : bool :=
  Js.ToBoolean (Js.Num (Js.StringToNumber s)).

(** The numeric strings a browse page meets most: a year, a count, an
    identifier, spelled with decimal digits only. *)
Definition isDecimalDigit (c : ascii) : bool :=
  let n := N_of_ascii c in ((48 <=? n) && (n <=? 57))%N.

Definition isDecimalDigits (s : string) : bool :=
  negb (String.eqb s "") && forallb isDecimalDigit (list_ascii_of_string s).

Definition decimalValue (s : string) : N :=
  Js.digitsValue 10
    (List.map (fun c => N_of_ascii c - 48)%N (list_ascii_of_string s)).

(** ** shared/empty.util *)

(** Modelled from the spec: [hasValue], [isUndefined], [isEmpty] and
    [isNotEmpty] are imported from [shared/empty.util], which is not among
    the sources.  The spec reads them as "present" (neither [undefined] nor
    [null]) and "non-empty"; a property that may be missing is an [option],
    a number is never empty, and an object is empty when it has no own
    key. *)
Class HasValue (A : Type) := hasValue : A -> bool.

(** Modelled from the spec: [isEmpty] of [shared/empty.util], on each type
    of value it is applied to. *)
Class IsEmpty (A : Type) := isEmpty : A -> bool.

(** Modelled from the spec: [hasValue] of [shared/empty.util] on a
    primitive value: "present". *)
#[export] Instance Value_hasValue : HasValue Js.Value := fun v =>
  match v with
  | Js.Undefined | Js.Null => false
  | _ => true
  end.

(** Modelled from the spec: [hasValue] of [shared/empty.util] on a
    reference that may be [undefined]. *)
#[export] Instance option_hasValue {A} : HasValue (option A) := fun o =>
  match o with
  | Some _ => true
  | None => false
  end.

(** Modelled from the spec: [isEmpty] of [shared/empty.util] on a
    primitive value: the empty string is "no filter", a number is a
    filter. *)
#[export] Instance Value_isEmpty : IsEmpty Js.Value := fun v =>
  match v with
  | Js.Undefined | Js.Null => true
  | Js.Str s => String.eqb s ""
  | Js.Num _ => false
  end.

(** Modelled from the spec: [isEmpty] of [shared/empty.util] on an object
    given by the list of its own properties. *)
#[export] Instance list_isEmpty {A} : IsEmpty (list A) := fun l =>
  match l with
  | [] => true
  | _ :: _ => false
  end.

(** Modelled from the spec: [isEmpty] of [shared/empty.util] on a
    reference that may be [undefined]. *)
#[export] Instance option_isEmpty {A} `{IsEmpty A} : IsEmpty (option A) := fun o =>
  match o with
  | Some a => isEmpty a
  | None => true
  end.

(** Modelled from the spec: [isNotEmpty] of [shared/empty.util]. *)
Definition isNotEmpty {A} `{IsEmpty A} (a : A) : bool := negb (isEmpty a).

(** Modelled from the spec: [isUndefined] of [shared/empty.util]. *)
Definition isUndefined {A} (o : option A) : bool :=
  match o with
  | Some _ => false
  | None => true
  end.

(** ** Observables and the operators applied to them *)

Module Rx.

(** An observable is the sequence of values it delivers, oldest first. *)
Definition Observable (A : Type) : Type := list A.

Definition map {A B} (f : A -> B) (o : Observable A) : Observable B :=
  List.map f o.

Definition filter {A} (p : A -> bool) (o : Observable A) : Observable A :=
  List.filter p o.

Definition take {A} (n : nat) (o : Observable A) : Observable A :=
  firstn n o.

(** Drops a value that is equal to the one delivered just before it. *)
Fixpoint distinctUntilChangedFrom {A} (eqb : A -> A -> bool) (prev : A)
    (o : Observable A) : Observable A :=
  match o with
  | [] => []
  | x :: o' =>
      if eqb prev x then distinctUntilChangedFrom eqb prev o'
      else x :: distinctUntilChangedFrom eqb x o'
  end.

Definition distinctUntilChanged {A} (eqb : A -> A -> bool)
    (o : Observable A) : Observable A :=
  match o with
  | [] => []
  | x :: o' => x :: distinctUntilChangedFrom eqb x o'
  end.

End Rx.

(** Modelled from the spec: the result envelope [RemoteData] and
    [getFirstSucceededRemoteData] live in [core/data/remote-data] and
    [core/shared/operators], which are not among the sources.  The spec
    describes "a success/failure/loading envelope" of which only "the first
    success" is read. *)
Inductive RemoteData (A : Type) : Type :=
| Loading
| Failed (errorMessage : string)
| Succeeded (payload : A).
Arguments Loading {A}.
Arguments Failed {A} errorMessage.
Arguments Succeeded {A} payload.

(** Modelled from the spec: [hasSucceeded] of [core/data/remote-data]. *)
Definition hasSucceeded {A} (rd : RemoteData A) : bool :=
  match rd with
  | Succeeded _ => true
  | _ => false
  end.

(** Modelled from the spec: [getFirstSucceededRemoteData] of
    [core/shared/operators], "collapsed to first success". *)
Definition getFirstSucceededRemoteData {A}
    (o : Rx.Observable (RemoteData A)) : Rx.Observable (RemoteData A) :=
  Rx.take 1 (Rx.filter hasSucceeded o).

(** ** A state monad for methods that assign fields and call collaborators *)

Definition State (S A : Type) : Type := S -> A * S.

#[export] Instance State_ret {S} : MRet (State S) := fun A a s => (a, s).
#[export] Instance State_bind {S} : MBind (State S) := fun A B f m s =>
  let '(a, s') := m s in f a s'.

Definition modify {S} (f : S -> S) : State S unit := fun s => (tt, f s).
Definition gets {S A} (f : S -> A) : State S A := fun s => (f s, s).
Definition exec {S A} (m : State S A) (s : S) : S := snd (m s).

(** [xs.forEach(f)] *)
Fixpoint forEach {S A} (f : A -> State S unit) (xs : list A) : State S unit :=
  match xs with
  | [] => mret tt
  | x :: xs' => f x;; forEach f xs'
  end.

(** [if (c) { m }] with no [else]. *)
Definition when {S} (c : bool) (m : State S unit) : State S unit :=
  if c then m else mret tt.

Notation "a '.||' b" := (Js.or a b) (at level 50, left associativity).

(** ** browse-by-metadata-page.component.ts *)

Module BrowseByMetadataPage.

(** [Params] of the router: the values are the strings of the URL, and a
    property that is not set reads as [undefined].  (A query parameter
    given several times would be an array, which is not modelled.) *)
Abbreviation Params := (gmap string Js.Value).

Definition prop (params : Params) (key : string) : Js.Value :=
  default Js.Undefined (params !! key).

(** [Object.assign({}, a, b)]: the later source wins on a shared key. *)
Definition Object_assign (a b : Params) : Params := b ∪ a.

Inductive SortDirection := ASC | DESC.

Record SortOptions := {
  field : string;
  direction : SortDirection
}.

Record PaginationComponentOptions := {
  id : string;
  currentPage : Z;
  pageSize : Z
}.

(** [new BrowseEntrySearchOptions(metadataDefinition, pagination, sort,
    startsWith, scope)]; the last two are optional.  [searchStartsWith] is
    the [startsWith] of the options, renamed apart from the field of the
    component. *)
Record BrowseEntrySearchOptions := {
  metadataDefinition : Js.Value;
  pagination : PaginationComponentOptions;
  sort : SortOptions;
  searchStartsWith : Js.Value;
  scope : Js.Value
}.

Inductive StartsWithType := text | date.

Definition Subscription : Type := nat.

Definition BBM_PAGINATION_ID : string := "bbm".

(** Transforms query and url parameters into the search options used to
    fetch browse entries or items. *)
Definition browseParamsToOptions (params : Params)
    (paginationConfig : PaginationComponentOptions) (sortConfig : SortOptions)
    (metadata : Js.Value) : BrowseEntrySearchOptions :=
  {| metadataDefinition := metadata;
     pagination := paginationConfig;
     sort := sortConfig;
     searchStartsWith := Js.plus (prop params "startsWith") .|| prop params "startsWith";
     scope := prop params "scope" |}.

(** The model classes the page shows; the component never looks inside
    them. *)
Class DataModel := {
  BrowseEntry : Type;
  Item : Type;
  DSpaceObject : Type;
  PaginatedList : Type -> Type
}.

Section Component.

Context `{DataModel}.

Abbreviation Entries := (RemoteData (PaginatedList BrowseEntry)).
Abbreviation Items := (RemoteData (PaginatedList Item)).

(** The injected services, [observableCombineLatest] included: the
    component only passes values to them and stores what they return. *)
Class Collaborators := {
  route_params : Rx.Observable Params;
  route_queryParams : Rx.Observable Params;
  observableCombineLatest :
    Rx.Observable Params -> Rx.Observable Params ->
    Rx.Observable PaginationComponentOptions -> Rx.Observable SortOptions ->
    Rx.Observable (Params * Params * PaginationComponentOptions * SortOptions);
  getBrowseEntriesFor : BrowseEntrySearchOptions -> Rx.Observable Entries;
  getBrowseItemsFor :
    Js.Value -> Js.Value -> BrowseEntrySearchOptions -> Rx.Observable Items;
  getPrevBrowseItems : Items -> Rx.Observable Items;
  getNextBrowseItems : Items -> Rx.Observable Items;
  getPrevBrowseEntries : Entries -> Rx.Observable Entries;
  getNextBrowseEntries : Entries -> Rx.Observable Entries;
  findById : Js.Value -> Rx.Observable (RemoteData DSpaceObject);
  getCurrentPagination :
    string -> PaginationComponentOptions -> Rx.Observable PaginationComponentOptions;
  getCurrentSort : string -> SortOptions -> Rx.Observable SortOptions
}.

Context `{Collaborators}.

(** The fields of the class; a trailing [_] stands for the [$] of the
    source, and a field that holds [undefined] is [None]. *)
Record BrowseByMetadataPageComponent := {
  browseEntries_ : option (Rx.Observable Entries);
  items_ : option (Rx.Observable Items);
  parent_ : option (Rx.Observable (RemoteData DSpaceObject));
  paginationConfig : PaginationComponentOptions;
  currentPagination_ : option (Rx.Observable PaginationComponentOptions);
  currentSort_ : option (Rx.Observable SortOptions);
  subs : list (option Subscription);
  defaultBrowseId : string;
  browseId : Js.Value;
  startsWithType : StartsWithType;
  startsWithOptions : option (list string);
  value : Js.Value;
  authority : Js.Value;
  startsWith : Js.Value
}.

(** The field initialisers. *)
Definition new_BrowseByMetadataPageComponent : BrowseByMetadataPageComponent :=
  {| browseEntries_ := None;
     items_ := None;
     parent_ := None;
     paginationConfig :=
       {| id := BBM_PAGINATION_ID; currentPage := 1; pageSize := 20 |};
     currentPagination_ := None;
     currentSort_ := None;
     subs := [];
     defaultBrowseId := "author";
     browseId := Js.Str "author";
     startsWithType := text;
     startsWithOptions := None;
     value := Js.Str "";
     authority := Js.Undefined;
     startsWith := Js.Undefined |}.

(** Every call on a collaborator, as it is logged. *)
Inductive Request :=
| ReqGetBrowseEntriesFor (searchOptions : BrowseEntrySearchOptions)
| ReqGetBrowseItemsFor (v a : Js.Value) (searchOptions : BrowseEntrySearchOptions)
| ReqGetPrevBrowseItems (items : Items)
| ReqGetNextBrowseItems (items : Items)
| ReqGetPrevBrowseEntries (entries : Entries)
| ReqGetNextBrowseEntries (entries : Entries)
| ReqFindById (uuid : Js.Value)
| ReqGetCurrentPagination (key : string) (dflt : PaginationComponentOptions)
| ReqGetCurrentSort (key : string) (dflt : SortOptions)
| ReqClearPagination (key : string)
| ReqUnsubscribe (sub : Subscription).

(** The component together with what its collaborators hold: the log of
    calls made so far, the pagination state kept per key, and the
    subscriptions that are still active. *)
Record World := {
  this : BrowseByMetadataPageComponent;
  requests : list Request;
  paginationState : gmap string (PaginationComponentOptions * SortOptions);
  active : gset Subscription;
  nextSubscription : Subscription
}.

Abbreviation Method := (State World).

Definition assign (f : BrowseByMetadataPageComponent -> BrowseByMetadataPageComponent)
    : Method unit :=
  modify (fun w =>
    {| this := f (this w); requests := requests w;
       paginationState := paginationState w; active := active w;
       nextSubscription := nextSubscription w |}).

Definition request {A} (r : Request) (result : A) : Method A := fun w =>
  (result,
   {| this := this w; requests := requests w ++ [r];
      paginationState := paginationState w; active := active w;
      nextSubscription := nextSubscription w |}).

(** Field assignments. *)
Definition set_browseEntries_ v c :=
  {| browseEntries_ := v; items_ := items_ c; parent_ := parent_ c;
     paginationConfig := paginationConfig c;
     currentPagination_ := currentPagination_ c; currentSort_ := currentSort_ c;
     subs := subs c; defaultBrowseId := defaultBrowseId c; browseId := browseId c;
     startsWithType := startsWithType c; startsWithOptions := startsWithOptions c;
     value := value c; authority := authority c; startsWith := startsWith c |}.
Definition set_items_ v c :=
  {| browseEntries_ := browseEntries_ c; items_ := v; parent_ := parent_ c;
     paginationConfig := paginationConfig c;
     currentPagination_ := currentPagination_ c; currentSort_ := currentSort_ c;
     subs := subs c; defaultBrowseId := defaultBrowseId c; browseId := browseId c;
     startsWithType := startsWithType c; startsWithOptions := startsWithOptions c;
     value := value c; authority := authority c; startsWith := startsWith c |}.
Definition set_parent_ v c :=
  {| browseEntries_ := browseEntries_ c; items_ := items_ c; parent_ := v;
     paginationConfig := paginationConfig c;
     currentPagination_ := currentPagination_ c; currentSort_ := currentSort_ c;
     subs := subs c; defaultBrowseId := defaultBrowseId c; browseId := browseId c;
     startsWithType := startsWithType c; startsWithOptions := startsWithOptions c;
     value := value c; authority := authority c; startsWith := startsWith c |}.
Definition set_currentPagination_ v c :=
  {| browseEntries_ := browseEntries_ c; items_ := items_ c; parent_ := parent_ c;
     paginationConfig := paginationConfig c;
     currentPagination_ := v; currentSort_ := currentSort_ c;
     subs := subs c; defaultBrowseId := defaultBrowseId c; browseId := browseId c;
     startsWithType := startsWithType c; startsWithOptions := startsWithOptions c;
     value := value c; authority := authority c; startsWith := startsWith c |}.
Definition set_currentSort_ v c :=
  {| browseEntries_ := browseEntries_ c; items_ := items_ c; parent_ := parent_ c;
     paginationConfig := paginationConfig c;
     currentPagination_ := currentPagination_ c; currentSort_ := v;
     subs := subs c; defaultBrowseId := defaultBrowseId c; browseId := browseId c;
     startsWithType := startsWithType c; startsWithOptions := startsWithOptions c;
     value := value c; authority := authority c; startsWith := startsWith c |}.
Definition set_subs v c :=
  {| browseEntries_ := browseEntries_ c; items_ := items_ c; parent_ := parent_ c;
     paginationConfig := paginationConfig c;
     currentPagination_ := currentPagination_ c; currentSort_ := currentSort_ c;
     subs := v; defaultBrowseId := defaultBrowseId c; browseId := browseId c;
     startsWithType := startsWithType c; startsWithOptions := startsWithOptions c;
     value := value c; authority := authority c; startsWith := startsWith c |}.
Definition set_browseId v c :=
  {| browseEntries_ := browseEntries_ c; items_ := items_ c; parent_ := parent_ c;
     paginationConfig := paginationConfig c;
     currentPagination_ := currentPagination_ c; currentSort_ := currentSort_ c;
     subs := subs c; defaultBrowseId := defaultBrowseId c; browseId := v;
     startsWithType := startsWithType c; startsWithOptions := startsWithOptions c;
     value := value c; authority := authority c; startsWith := startsWith c |}.
Definition set_startsWithOptions v c :=
  {| browseEntries_ := browseEntries_ c; items_ := items_ c; parent_ := parent_ c;
     paginationConfig := paginationConfig c;
     currentPagination_ := currentPagination_ c; currentSort_ := currentSort_ c;
     subs := subs c; defaultBrowseId := defaultBrowseId c; browseId := browseId c;
     startsWithType := startsWithType c; startsWithOptions := v;
     value := value c; authority := authority c; startsWith := startsWith c |}.
Definition set_value v c :=
  {| browseEntries_ := browseEntries_ c; items_ := items_ c; parent_ := parent_ c;
     paginationConfig := paginationConfig c;
     currentPagination_ := currentPagination_ c; currentSort_ := currentSort_ c;
     subs := subs c; defaultBrowseId := defaultBrowseId c; browseId := browseId c;
     startsWithType := startsWithType c; startsWithOptions := startsWithOptions c;
     value := v; authority := authority c; startsWith := startsWith c |}.
Definition set_authority v c :=
  {| browseEntries_ := browseEntries_ c; items_ := items_ c; parent_ := parent_ c;
     paginationConfig := paginationConfig c;
     currentPagination_ := currentPagination_ c; currentSort_ := currentSort_ c;
     subs := subs c; defaultBrowseId := defaultBrowseId c; browseId := browseId c;
     startsWithType := startsWithType c; startsWithOptions := startsWithOptions c;
     value := value c; authority := v; startsWith := startsWith c |}.
Definition set_startsWith v c :=
  {| browseEntries_ := browseEntries_ c; items_ := items_ c; parent_ := parent_ c;
     paginationConfig := paginationConfig c;
     currentPagination_ := currentPagination_ c; currentSort_ := currentSort_ c;
     subs := subs c; defaultBrowseId := defaultBrowseId c; browseId := browseId c;
     startsWithType := startsWithType c; startsWithOptions := startsWithOptions c;
     value := value c; authority := authority c; startsWith := v |}.

(** Modelled from the spec: [Subscription] and [PaginationService] are not
    among the sources.  Subscribing hands out a fresh subscription, which
    stays active until it is released; the callback runs on each value the
    observable delivers.  Releasing a subscription that is no longer active
    changes nothing, and [clearPagination key] drops what is kept under
    [key]. *)
Definition register : Method Subscription := fun w =>
  let sub := nextSubscription w in
  (sub,
   {| this := this w; requests := requests w;
      paginationState := paginationState w; active := {[sub]} ∪ active w;
      nextSubscription := S sub |}).

(** Modelled from the spec: [subscribe] of rxjs; the callback is run at
    once on every value the observable delivers. *)
Definition subscribe {A} (o : Rx.Observable A) (next : A -> Method unit)
    : Method Subscription :=
  sub ← register;
  forEach next o;;
  mret sub.

(** Modelled from the spec: [Subscription.unsubscribe], "released". *)
Definition unsubscribe (sub : Subscription) : Method unit := fun w =>
  (tt,
   {| this := this w; requests := requests w ++ [ReqUnsubscribe sub];
      paginationState := paginationState w; active := active w ∖ {[sub]};
      nextSubscription := nextSubscription w |}).

(** Modelled from the spec: [PaginationService.clearPagination(key)]. *)
Definition clearPagination (key : string) : Method unit := fun w =>
  (tt,
   {| this := this w; requests := requests w ++ [ReqClearPagination key];
      paginationState := delete key (paginationState w); active := active w;
      nextSubscription := nextSubscription w |}).

(** Updates the StartsWith options with text values: "0-9" and all letters
    from A to Z. *)
Definition updateStartsWithTextOptions : Method unit :=
  assign (set_startsWithOptions
    (Some ("0-9" :: List.map (fun c => String c EmptyString)
                      (list_ascii_of_string "ABCDEFGHIJKLMNOPQRSTUVWXYZ")))).

(** Updates the current page with searchOptions. *)
Definition updatePage (searchOptions : BrowseEntrySearchOptions) : Method unit :=
  entries ← request (ReqGetBrowseEntriesFor searchOptions)
                    (getBrowseEntriesFor searchOptions);
  assign (set_browseEntries_ (Some entries));;
  assign (set_items_ None).

(** Updates the current page with searchOptions and displays the items
    linked to the given value. *)
Definition updatePageWithItems (searchOptions : BrowseEntrySearchOptions)
    (value authority : Js.Value) : Method unit :=
  items ← request (ReqGetBrowseItemsFor value authority searchOptions)
                  (getBrowseItemsFor value authority searchOptions);
  assign (set_items_ (Some items)).

(** Updates the parent Community or Collection using their scope. *)
Definition updateParent (scope : Js.Value) : Method unit :=
  when (hasValue scope)
    (dso ← request (ReqFindById scope) (findById scope);
     assign (set_parent_ (Some (getFirstSucceededRemoteData dso)))).

(** Navigate to the previous page. *)
Definition goPrev : Method unit :=
  c ← gets this;
  match items_ c with
  | Some current =>
      subscribe (getFirstSucceededRemoteData current) (fun items =>
        prev ← request (ReqGetPrevBrowseItems items) (getPrevBrowseItems items);
        assign (set_items_ (Some prev)));;
      mret tt
  | None =>
      match browseEntries_ c with
      | Some current =>
          subscribe (getFirstSucceededRemoteData current) (fun entries =>
            prev ← request (ReqGetPrevBrowseEntries entries)
                           (getPrevBrowseEntries entries);
            assign (set_browseEntries_ (Some prev)));;
          mret tt
      | None => mret tt
      end
  end.

(** Navigate to the next page. *)
Definition goNext : Method unit :=
  c ← gets this;
  match items_ c with
  | Some current =>
      subscribe (getFirstSucceededRemoteData current) (fun items =>
        next ← request (ReqGetNextBrowseItems items) (getNextBrowseItems items);
        assign (set_items_ (Some next)));;
      mret tt
  | None =>
      match browseEntries_ c with
      | Some current =>
          subscribe (getFirstSucceededRemoteData current) (fun entries =>
            next ← request (ReqGetNextBrowseEntries entries)
                           (getNextBrowseEntries entries);
            assign (set_browseEntries_ (Some next)));;
          mret tt
      | None => mret tt
      end
  end.

(** The function given to [map] in [ngOnInit]. *)
Definition ngOnInit_map
    (latest : Params * Params * PaginationComponentOptions * SortOptions)
    : Params * PaginationComponentOptions * SortOptions :=
  let '(routeParams, queryParams, currentPage, currentSort) := latest in
  (Object_assign routeParams queryParams, currentPage, currentSort).

(** The function given to [subscribe] in [ngOnInit]. *)
Definition ngOnInit_next
    (snapshot : Params * PaginationComponentOptions * SortOptions) : Method unit :=
  let '(params, currentPage, currentSort) := snapshot in
  c ← gets this;
  assign (set_browseId (prop params "id" .|| Js.Str (defaultBrowseId c)));;
  assign (set_authority (prop params "authority"));;
  assign (set_value
    (Js.plus (prop params "value") .|| prop params "value" .|| Js.Str ""));;
  assign (set_startsWith
    (Js.plus (prop params "startsWith") .|| prop params "startsWith"));;
  c ← gets this;
  let searchOptions :=
    browseParamsToOptions params currentPage currentSort (browseId c) in
  (if isNotEmpty (value c)
   then updatePageWithItems searchOptions (value c) (authority c)
   else updatePage searchOptions);;
  updateParent (prop params "scope").

Definition ngOnInit : Method unit :=
  let sortConfig := {| field := "default"; direction := ASC |} in
  c ← gets this;
  updatePage {| metadataDefinition := Js.Str (defaultBrowseId c);
                pagination := paginationConfig c;
                sort := sortConfig;
                searchStartsWith := Js.Undefined;
                scope := Js.Undefined |};;
  currentPagination ←
    request (ReqGetCurrentPagination (id (paginationConfig c)) (paginationConfig c))
            (getCurrentPagination (id (paginationConfig c)) (paginationConfig c));
  assign (set_currentPagination_ (Some currentPagination));;
  currentSort ←
    request (ReqGetCurrentSort (id (paginationConfig c)) sortConfig)
            (getCurrentSort (id (paginationConfig c)) sortConfig);
  assign (set_currentSort_ (Some currentSort));;
  sub ← subscribe
          (Rx.map ngOnInit_map
             (observableCombineLatest route_params route_queryParams
                currentPagination currentSort))
          ngOnInit_next;
  c ← gets this;
  assign (set_subs (subs c ++ [Some sub]));;
  updateStartsWithTextOptions.

(** The callback of [forEach] is only reached by entries that passed the
    filter. *)
Definition ngOnDestroy : Method unit :=
  c ← gets this;
  forEach (fun sub : option Subscription =>
             match sub with
             | Some sub => unsubscribe sub
             | None => mret tt
             end)
          (List.filter hasValue (subs c));;
  clearPagination (id (paginationConfig c)).

(** The component as the framework creates it: nothing was requested,
    nothing is subscribed. *)
Definition new_World
    (paginationState : gmap string (PaginationComponentOptions * SortOptions))
    : World :=
  {| this := new_BrowseByMetadataPageComponent; requests := [];
     paginationState := paginationState; active := ∅; nextSubscription := 0 |}.

(** What can happen to the component during its life. *)
Inductive Call :=
| CallNgOnInit
| CallUpdatePage (searchOptions : BrowseEntrySearchOptions)
| CallUpdatePageWithItems (searchOptions : BrowseEntrySearchOptions)
    (value authority : Js.Value)
| CallUpdateParent (scope : Js.Value)
| CallGoPrev
| CallGoNext
| CallNgOnDestroy.

Definition invoke (c : Call) : Method unit :=
  match c with
  | CallNgOnInit => ngOnInit
  | CallUpdatePage o => updatePage o
  | CallUpdatePageWithItems o v a => updatePageWithItems o v a
  | CallUpdateParent s => updateParent s
  | CallGoPrev => goPrev
  | CallGoNext => goNext
  | CallNgOnDestroy => ngOnDestroy
  end.

Definition run (cs : list Call) : Method unit := forEach invoke cs.

(** The entries of [subs] that are subscriptions, in order. *)
Definition tracked (c : BrowseByMetadataPageComponent) : list Subscription :=
  omap (fun sub => sub) (subs c).

(** A method keeps a property of the component when the property survives
    every execution of the method. *)
Definition keeps {A} (Q : BrowseByMetadataPageComponent -> Prop) (m : Method A)
    : Prop :=
  forall w, Q (this w) -> Q (this (exec m w)).

(** The two fields that no method assigns. *)
Definition configured (c : BrowseByMetadataPageComponent) : Prop :=
  paginationConfig c = paginationConfig new_BrowseByMetadataPageComponent /\
  defaultBrowseId c = defaultBrowseId new_BrowseByMetadataPageComponent.

End Component.

(** A small data layer to run the component on: pages are lists of
    strings, every request is answered by a loading envelope followed by
    one successful page, and the combined route stream delivers one
    snapshot once all four sources have delivered. *)
Definition sample_DataModel : DataModel :=
  {| BrowseEntry := string; Item := string; DSpaceObject := string;
     PaginatedList := list |}.

Definition sample_page (names : list string)
    : Rx.Observable (RemoteData (list string)) :=
  [Loading; Succeeded names].

Definition sample_Collaborators (routeParams queryParams : Params)
    : @Collaborators sample_DataModel :=
  @Build_Collaborators sample_DataModel
    (* route_params *) [routeParams]
    (* route_queryParams *) [queryParams]
    (* observableCombineLatest *)
    (fun ps qs gs ss =>
       match ps, qs, gs, ss with
       | p :: _, q :: _, g :: _, s :: _ => [(p, q, g, s)]
       | _, _, _, _ => []
       end)
    (* getBrowseEntriesFor *) (fun _ => sample_page ["Smith, J."; "Smith, K."])
    (* getBrowseItemsFor *) (fun _ _ _ => sample_page ["Item 1"; "Item 2"])
    (* getPrevBrowseItems *) (fun _ => sample_page ["Item 0"])
    (* getNextBrowseItems *) (fun _ => sample_page ["Item 3"])
    (* getPrevBrowseEntries *) (fun _ => sample_page ["Smith, A."])
    (* getNextBrowseEntries *) (fun _ => sample_page ["Smith, Z."])
    (* findById *) (fun _ => [Loading; Succeeded ("Community 1" : string)])
    (* getCurrentPagination *) (fun _ dflt => [dflt])
    (* getCurrentSort *) (fun _ dflt => [dflt]).

Definition sample_pagination : PaginationComponentOptions :=
  {| id := BBM_PAGINATION_ID; currentPage := 1; pageSize := 20 |}.

Definition sample_sort : SortOptions := {| field := "default"; direction := ASC |}.

Definition sample_options : BrowseEntrySearchOptions :=
  browseParamsToOptions ∅ sample_pagination sample_sort (Js.Str "author").

(** The sample component right after its creation, after [updatePage],
    after [updatePageWithItems], and after both in that order. *)
Definition sample_new : @World sample_DataModel := new_World ∅.

Definition sample_entries : @World sample_DataModel :=
  exec (@updatePage _ (sample_Collaborators ∅ ∅) sample_options) sample_new.

Definition sample_items : @World sample_DataModel :=
  exec (@updatePageWithItems _ (sample_Collaborators ∅ ∅) sample_options
          (Js.Str "Smith") Js.Undefined) sample_new.

Definition sample_both : @World sample_DataModel :=
  exec (@updatePageWithItems _ (sample_Collaborators ∅ ∅) sample_options
          (Js.Str "Smith") Js.Undefined) sample_entries.

End BrowseByMetadataPage.

(** ** SubmissionSubmitFormComponent (in submission-objects.effects.ts) *)

Module SubmissionSubmitForm.

(** An entry of the definitions map of the shared state; only [isDefault]
    is read. *)
Record SubmissionDefinition := {
  isDefault : bool
}.

(** The definitions object: its own properties in the order in which
    [Object.keys] lists them. *)
Abbreviation Definitions := (list (string * SubmissionDefinition)).

Definition Object_keys (definitions : Definitions) : list string :=
  List.map fst definitions.

(** [definitions[definitionId]] *)
Fixpoint get (definitions : Definitions) (definitionId : string)
    : option SubmissionDefinition :=
  match definitions with
  | [] => None
  | (k, d) :: rest => if String.eqb k definitionId then Some d else get rest definitionId
  end.

(** [keys.pop()]: the last element, [undefined] for an empty array. *)
Definition pop (keys : list string) : Js.Value :=
  match last keys with
  | Some k => Js.Str k
  | None => Js.Undefined
  end.

Record SimpleChange := {
  previousValue : Js.Value;
  currentValue : Js.Value;
  firstChange : bool
}.

(** [changes.x.currentValue]; the source only evaluates it after
    [hasValue(changes.x)]. *)
Definition currentValueOf (change : option SimpleChange) : Js.Value :=
  match change with
  | Some c => currentValue c
  | None => Js.Undefined
  end.

Inductive Action :=
| NewSubmissionFormAction (collectionId submissionId : Js.Value).

Record SubmissionSubmitFormComponent := {
  collectionId : Js.Value;
  submissionId : Js.Value;
  definitionId : Js.Value;
  isLoading : bool
}.

Definition new_SubmissionSubmitFormComponent : SubmissionSubmitFormComponent :=
  {| collectionId := Js.Undefined; submissionId := Js.Undefined;
     definitionId := Js.Undefined; isLoading := true |}.

(** The component and the actions dispatched to the store so far, oldest
    first. *)
Record World := {
  this : SubmissionSubmitFormComponent;
  dispatched : list Action
}.

Abbreviation Method := (State World).

Definition dispatch (a : Action) : Method unit :=
  modify (fun w => {| this := this w; dispatched := dispatched w ++ [a] |}).

Definition assign (f : SubmissionSubmitFormComponent -> SubmissionSubmitFormComponent)
    : Method unit :=
  modify (fun w => {| this := f (this w); dispatched := dispatched w |}).

Definition set_collectionId v c :=
  {| collectionId := v; submissionId := submissionId c;
     definitionId := definitionId c; isLoading := isLoading c |}.
Definition set_definitionId v c :=
  {| collectionId := collectionId c; submissionId := submissionId c;
     definitionId := v; isLoading := isLoading c |}.
Definition set_isLoading v c :=
  {| collectionId := collectionId c; submissionId := submissionId c;
     definitionId := definitionId c; isLoading := v |}.

Definition ngOnChanges (changes : gmap string SimpleChange) : Method unit :=
  when (hasValue (changes !! "collectionId")
        && hasValue (currentValueOf (changes !! "collectionId"))
        && hasValue (changes !! "submissionId")
        && hasValue (currentValueOf (changes !! "submissionId")))
    (c ← gets this;
     dispatch (NewSubmissionFormAction (collectionId c) (submissionId c))).

(** The function given to [filter] in [getDefaultSubmissionDefinition]. *)
Definition getDefaultSubmissionDefinition_filter
    (definitions : option Definitions) : bool :=
  negb (isUndefined definitions) && negb (isEmpty definitions).

(** [definitions[definitionId].isDefault], for a key of [definitions]. *)
Definition flagged (definitions : Definitions) (definitionId : string) : bool :=
  match get definitions definitionId with
  | Some d => isDefault d
  | None => false
  end.

(** The function given to [map] in [getDefaultSubmissionDefinition]; it
    only sees values that passed the filter. *)
Definition getDefaultSubmissionDefinition_map
    (definitions : option Definitions) : Js.Value :=
  let definitions := default [] definitions in
  let keys := List.filter (flagged definitions) (Object_keys definitions) in
  pop keys.

(** [store_select_definitions] is what
    [this.store.select(definitionsSelector)] delivers: the [definitions] of
    each state of the store, [None] where the state has none. *)
Definition getDefaultSubmissionDefinition
    (store_select_definitions : Rx.Observable (option Definitions))
    : Rx.Observable Js.Value :=
  Rx.distinctUntilChanged Js.strictEq
    (Rx.map getDefaultSubmissionDefinition_map
       (Rx.filter getDefaultSubmissionDefinition_filter store_select_definitions)).

Definition ngOnInit (store_select_definitions : Rx.Observable (option Definitions))
    : Method unit :=
  forEach (fun definitionId =>
             assign (set_definitionId definitionId);;
             assign (set_isLoading false))
          (getDefaultSubmissionDefinition store_select_definitions).

Definition onCollectionChange (collectionId : Js.Value) : Method unit :=
  assign (set_collectionId collectionId).

(** The values [getDefaultSubmissionDefinition] can deliver: a key or
    [undefined].  On those [===] is equality. *)
Definition isId (v : Js.Value) : Prop :=
  match v with
  | Js.Str _ | Js.Undefined => True
  | _ => False
  end.

(** The definitions map of the example in the spec, and the component
    with both inputs bound. *)
Definition sample_definitions : Definitions :=
  [("A", {| isDefault := false |}); ("B", {| isDefault := true |})].

Definition sample_bound : World :=
  {| this := {| collectionId := Js.Str "c1"; submissionId := Js.Str "s1";
                definitionId := Js.Undefined; isLoading := true |};
     dispatched := [] |}.

Definition sample_change (previous current : Js.Value) : SimpleChange :=
  {| previousValue := previous; currentValue := current; firstChange := false |}.

End SubmissionSubmitForm.

(** ** SubmissionObjectEffects (in submission-objects.effects.ts) *)

Module SubmissionObjectEffects.

(** The payload of an action; a property it does not have reads as
    [undefined]. *)
Record Payload := {
  collectionId : Js.Value;
  submissionId : Js.Value;
  definitionId : Js.Value
}.

(** The actions that travel through the store.  The action classes are
    declared in [submission-objects.actions] and
    [submission-definitions.actions], which are not among the sources; each
    is taken with the arguments the effects and the component give to its
    constructor. *)
Inductive Action :=
| NewSubmissionFormAction (collectionId submissionId : Js.Value)
| InitSubmissionFormAction (collectionId submissionId definitionId : Js.Value)
| CompleteInitSubmissionFormAction
| InitDefaultDefinitionAction (collectionId submissionId : Js.Value)
| OtherAction (type : string).

Inductive SubmissionObjectActionTypes := NEW | INIT_SUBMISSION_FORM.

Definition payload (action : Action) : Payload :=
  match action with
  | NewSubmissionFormAction c s | InitDefaultDefinitionAction c s =>
      {| collectionId := c; submissionId := s; definitionId := Js.Undefined |}
  | InitSubmissionFormAction c s d =>
      {| collectionId := c; submissionId := s; definitionId := d |}
  | CompleteInitSubmissionFormAction | OtherAction _ =>
      {| collectionId := Js.Undefined; submissionId := Js.Undefined;
         definitionId := Js.Undefined |}
  end.

(** [actions$.ofType(type)] *)
Definition ofType (type : SubmissionObjectActionTypes)
    (actions : Rx.Observable Action) : Rx.Observable Action :=
  Rx.filter (fun action =>
               match type, action with
               | NEW, NewSubmissionFormAction _ _ => true
               | INIT_SUBMISSION_FORM, InitSubmissionFormAction _ _ _ => true
               | _, _ => false
               end) actions.

(** The effect [new$]. *)
Definition new_ (actions : Rx.Observable Action) : Rx.Observable Action :=
  Rx.map (fun action =>
            InitDefaultDefinitionAction (collectionId (payload action))
                                        (submissionId (payload action)))
    (ofType NEW actions).

(** The calls received by the section service, oldest first. *)
Inductive SectionServiceCall :=
| LoadDefaultSections (collectionId submissionId definitionId : Js.Value).

Definition loadDefaultSections (collectionId submissionId definitionId : Js.Value)
    : State (list SectionServiceCall) unit :=
  modify (fun calls =>
            calls ++ [LoadDefaultSections collectionId submissionId definitionId]).

(** [o.do(f).map(g)] on an observable whose values arrive one after the
    other: the side effect of a value runs before its image is delivered. *)
Fixpoint doMap {S A B} (f : A -> State S unit) (g : A -> B)
    (o : Rx.Observable A) : State S (Rx.Observable B) :=
  match o with
  | [] => mret []
  | x :: o' =>
      f x;;
      rest ← doMap f g o';
      mret (g x :: rest)
  end.

(** The effect [initForm$]. *)
Definition initForm_ (actions : Rx.Observable Action)
    : State (list SectionServiceCall) (Rx.Observable Action) :=
  doMap (fun action =>
           loadDefaultSections (collectionId (payload action))
                               (submissionId (payload action))
                               (definitionId (payload action)))
        (fun _ => CompleteInitSubmissionFormAction)
        (ofType INIT_SUBMISSION_FORM actions).

(** The action a component dispatches, as the store sees it. *)
Definition toStore (action : SubmissionSubmitForm.Action) : Action :=
  match action with
  | SubmissionSubmitForm.NewSubmissionFormAction c s => NewSubmissionFormAction c s
  end.

End SubmissionObjectEffects.

(** * Properties of [Number] on strings *)

Module JsSpec.
Import Js.

Local Open Scope Z_scope.

Lemma digits2_pos_bounds (m : positive) :
  2 ^ (Zpos (digits2_pos m) - 1) <= Zpos m < 2 ^ Zpos (digits2_pos m).
Proof.
  induction m as [m IH | m IH |]; cbn [digits2_pos].
  - rewrite Pos2Z.inj_succ.
    replace (Z.succ (Zpos (digits2_pos m)) - 1) with (Z.succ (Zpos (digits2_pos m) - 1)) by lia.
    rewrite !Z.pow_succ_r by lia. lia.
  - rewrite Pos2Z.inj_succ.
    replace (Z.succ (Zpos (digits2_pos m)) - 1) with (Z.succ (Zpos (digits2_pos m) - 1)) by lia.
    rewrite !Z.pow_succ_r by lia. lia.
  - cbn. lia.
Qed.

Lemma shr_m_shr_1 mrs : 0 <= shr_m mrs -> shr_m (shr_1 mrs) = shr_m mrs / 2.
Proof.
  destruct mrs as [m r s]. cbn [shr_m]. intros Hm.
  destruct m as [|[p|p|]|p]; cbn [shr_1 shr_m]; try reflexivity; try lia.
  - rewrite Pos2Z.inj_xI. apply Z.div_unique with 1; lia.
  - rewrite Pos2Z.inj_xO. apply Z.div_unique with 0; lia.
Qed.

Lemma shr_m_iter_pos p : forall mrs,
  0 <= shr_m mrs -> shr_m (SpecFloat.iter_pos shr_1 p mrs) = shr_m mrs / 2 ^ Zpos p.
Proof.
  induction p as [p IH | p IH |]; intros mrs Hm; cbn [SpecFloat.iter_pos].
  - assert (H1 : 0 <= shr_m (shr_1 mrs)).
    { rewrite shr_m_shr_1 by exact Hm. apply Z.div_pos; lia. }
    assert (H2 : 0 <= shr_m (SpecFloat.iter_pos shr_1 p (shr_1 mrs))).
    { rewrite IH by exact H1. apply Z.div_pos; [exact H1 | lia]. }
    rewrite IH by exact H2. rewrite IH by exact H1. rewrite shr_m_shr_1 by exact Hm.
    rewrite !Z.div_div by lia. f_equal.
    replace (Zpos p~1) with (1 + Zpos p + Zpos p) by lia.
    rewrite !Z.pow_add_r by lia. rewrite Z.pow_1_r. ring.
  - assert (H2 : 0 <= shr_m (SpecFloat.iter_pos shr_1 p mrs)).
    { rewrite IH by exact Hm. apply Z.div_pos; [exact Hm | lia]. }
    rewrite IH by exact H2. rewrite IH by exact Hm.
    rewrite !Z.div_div by lia. f_equal.
    replace (Zpos p~0) with (Zpos p + Zpos p) by lia.
    rewrite !Z.pow_add_r by lia. ring.
  - now rewrite shr_m_shr_1.
Qed.


(** Shifting a positive mantissa right by what [fexp] asks for leaves it
    positive, as long as the result is not below the subnormal range. *)
Lemma shr_fexp_positive (m : positive) e l :
  -1022 <= e ->
  0 < shr_m (fst (shr_fexp prec emax (Zpos m) e l)) /\
  e <= snd (shr_fexp prec emax (Zpos m) e l).
Proof.
  intros He. unfold shr_fexp, shr, fexp, emin, prec, emax. cbn [Zdigits2].
  pose proof (digits2_pos_bounds m) as [Hlo Hhi].
  set (d := Zpos (digits2_pos m)) in *.
  assert (Hd : 1 <= d) by (unfold d; lia).
  rewrite Z.max_l by lia.
  replace (d + e - 53 - e) with (d - 53) by lia.
  destruct (d - 53) as [|n|n] eqn:En; cbn [fst snd].
  - destruct l as [|[]]; cbn; lia.
  - split; [|lia].
    rewrite shr_m_iter_pos by (destruct l as [|[]]; cbn; lia).
    replace (shr_m (shr_record_of_loc (Zpos m) l)) with (Zpos m)
      by (destruct l as [|[]]; reflexivity).
    apply Z.div_str_pos. split; [lia|].
    apply Z.le_trans with (2 ^ (d - 1)); [|exact Hlo].
    apply Z.pow_le_mono_r; lia.
  - destruct l as [|[]]; cbn; lia.
Qed.

Lemma round_nearest_even_positive m l : 0 < m -> 0 < round_nearest_even m l.
Proof.
  intros Hm. unfold round_nearest_even.
  destruct l as [|[]]; try destruct (Z.even m); lia.
Qed.

(** Rounding a positive mantissa whose exponent is not tiny never gives a
    zero or NaN. *)
Lemma binary_round_aux_truthy sx (m : positive) e l :
  -1022 <= e ->
  ToBoolean (Num (binary_round_aux prec emax sx (Zpos m) e l)) = true.
Proof.
  intros He. unfold binary_round_aux.
  pose proof (shr_fexp_positive m e l He) as [Hm1 He1].
  destruct (shr_fexp prec emax (Zpos m) e l) as [mrs1 e1]. cbn [fst snd] in *.
  pose proof (round_nearest_even_positive _ (loc_of_shr_record mrs1) Hm1) as Hm2.
  destruct (round_nearest_even (shr_m mrs1) (loc_of_shr_record mrs1))
    as [|m2|m2]; try lia.
  assert (He1' : -1022 <= e1) by lia.
  pose proof (shr_fexp_positive m2 e1 loc_Exact He1') as [Hm3 _].
  destruct (shr_fexp prec emax (Zpos m2) e1 loc_Exact) as [mrs3 e3].
  cbn [fst snd] in *.
  destruct (shr_m mrs3) as [|m3|m3]; try lia.
  destruct (e3 <=? emax - prec); reflexivity.
Qed.

Lemma roundInteger_truthy (p : positive) :
  ToBoolean (Num (roundInteger (Npos p))) = true.
Proof.
  unfold roundInteger, binary_round, shl_align.
  pose proof (digits2_pos_bounds p) as _.
  assert (Hd : 1 <= Zpos (digits2_pos p)) by lia.
  assert (Hf : -52 <= fexp prec emax (Zpos (digits2_pos p) + 0)).
  { unfold fexp, emin, prec, emax. lia. }
  destruct (fexp prec emax (Zpos (digits2_pos p) + 0) - 0) as [|n|n] eqn:En;
    apply binary_round_aux_truthy; lia.
Qed.

Local Close Scope Z_scope.

(** *** Strings of decimal digits *)

Lemma isDecimalDigit_code c :
  isDecimalDigit c = true -> (48 <= N_of_ascii c <= 57)%N.
Proof.
  unfold isDecimalDigit. intros Hc. apply andb_prop in Hc as [H1 H2].
  apply N.leb_le in H1, H2. lia.
Qed.

Lemma digit_not_whitespace c :
  isDecimalDigit c = true -> isStrWhiteSpaceChar c = false.
Proof.
  intros Hc%isDecimalDigit_code. unfold isStrWhiteSpaceChar.
  repeat (apply orb_false_intro).
  - apply andb_false_intro2. apply N.leb_gt. lia.
  - apply N.eqb_neq. lia.
  - apply N.eqb_neq. lia.
Qed.

Lemma digitValue_digit c :
  isDecimalDigit c = true -> digitValue 10 c = Some (N_of_ascii c - 48)%N.
Proof.
  intros Hc. pose proof (isDecimalDigit_code c Hc) as Hn.
  unfold digitValue. unfold isDecimalDigit in Hc. rewrite Hc.
  assert (E : (N_of_ascii c - 48 <? 10)%N = true) by (apply N.ltb_lt; lia).
  now rewrite E.
Qed.

Lemma spanDigits_digits l :
  forallb isDecimalDigit l = true ->
  spanDigits 10 l = (List.map (fun c => N_of_ascii c - 48)%N l, []).
Proof.
  induction l as [|c l IH]; cbn [forallb spanDigits List.map]; intros Hl.
  - reflexivity.
  - apply andb_prop in Hl as [Hc Hl].
    now rewrite (digitValue_digit c Hc), (IH Hl).
Qed.

Lemma trimStart_digit c l :
  isDecimalDigit c = true -> trimStart (c :: l) = c :: l.
Proof. intros Hc. cbn. now rewrite (digit_not_whitespace c Hc). Qed.

Lemma trim_digits l : forallb isDecimalDigit l = true -> trim l = l.
Proof.
  intros Hl. unfold trim.
  assert (Hstart : forall l', forallb isDecimalDigit l' = true -> trimStart l' = l').
  { intros [|c l']; [reflexivity|]. cbn [forallb]. intros [Hc _]%andb_prop.
    now apply trimStart_digit. }
  rewrite (Hstart l Hl). rewrite Hstart.
  - apply rev_involutive.
  - apply forallb_forall. intros c Hc%in_rev.
    now apply (proj1 (forallb_forall _ _) Hl).
Qed.

(** A non-empty string of decimal digits denotes the integer it spells,
    rounded to a binary64. *)
Lemma StringToNumber_decimalDigits s :
  isDecimalDigits s = true -> StringToNumber s = roundInteger (decimalValue s).
Proof.
  unfold isDecimalDigits, decimalValue, StringToNumber.
  intros [Hne Hl]%andb_prop. rewrite (trim_digits _ Hl).
  destruct s as [|c s]; [discriminate|]. cbn [list_ascii_of_string] in *.
  set (l := list_ascii_of_string s) in *.
  assert (Hc : isDecimalDigit c = true) by now apply andb_prop in Hl as [Hc _].
  pose proof (isDecimalDigit_code c Hc) as Hcode.
  assert (Hdec : parseStrDecimalLiteral (c :: l) =
                 roundInteger
                   (digitsValue 10 (List.map (fun c => N_of_ascii c - 48)%N (c :: l)))).
  { unfold parseStrDecimalLiteral.
    assert (E43 : (N_of_ascii c =? 43)%N = false) by (apply N.eqb_neq; lia).
    assert (E45 : (N_of_ascii c =? 45)%N = false) by (apply N.eqb_neq; lia).
    rewrite E43, E45.
    destruct (decide (c :: l = list_ascii_of_string "Infinity")) as [E|_].
    { injection E as -> _. discriminate Hc. }
    unfold parseUnsignedDecimal. rewrite (spanDigits_digits _ Hl).
    cbn [List.map parseExponent length Z.of_nat]. rewrite app_nil_r.
    destruct (digitsValue 10 _) as [|m]; [reflexivity|].
    unfold roundDecimal, roundInteger. cbn [Z.sub Z.opp Z.add].
    now rewrite Z.pow_0_r, Z.mul_1_r. }
  destruct l as [|c1 r] eqn:El; [exact Hdec|].
  assert (Hc1 : isDecimalDigit c1 = true).
  { cbn [forallb] in Hl. now apply andb_prop in Hl as [_ [H1 _]%andb_prop]. }
  pose proof (isDecimalDigit_code c1 Hc1) as Hcode1.
  destruct (N_of_ascii c =? 48)%N; [|exact Hdec].
  assert (E : forall k, (57 < k)%N -> (N_of_ascii c1 =? k)%N = false).
  { intros k Hk. apply N.eqb_neq. lia. }
  cbv zeta. rewrite !E by lia. exact Hdec.
Qed.

(** It is numeric, and its number is kept by [+s || s] unless every digit
    is a zero. *)
Lemma decimalDigits_numeric s :
  isDecimalDigits s = true ->
  isNumeric s = true /\
  isNonZeroNumeric s = negb (decimalValue s =? 0)%N.
Proof.
  intros Hs. unfold isNumeric, isNonZeroNumeric.
  rewrite (StringToNumber_decimalDigits s Hs).
  destruct (decimalValue s) as [|p].
  - split; reflexivity.
  - pose proof (roundInteger_truthy p) as Hp. cbn [N.eqb negb]. split; [|exact Hp].
    cbn [ToBoolean] in Hp. now destruct (roundInteger (N.pos p)).
Qed.

End JsSpec.

(** * Properties of the browse-by-metadata page *)

Module BrowseByMetadataPageSpec.
Import BrowseByMetadataPage.

Section Properties.

Context `{DataModel} `{!Collaborators}.

Implicit Types (w : World) (searchOptions : BrowseEntrySearchOptions).

Lemma exec_updatePage w searchOptions :
  exec (updatePage searchOptions) w =
  {| this := set_items_ None
               (set_browseEntries_ (Some (getBrowseEntriesFor searchOptions)) (this w));
     requests := requests w ++ [ReqGetBrowseEntriesFor searchOptions];
     paginationState := paginationState w; active := active w;
     nextSubscription := nextSubscription w |}.
Proof. reflexivity. Qed.

Lemma exec_updatePageWithItems w searchOptions v a :
  exec (updatePageWithItems searchOptions v a) w =
  {| this := set_items_ (Some (getBrowseItemsFor v a searchOptions)) (this w);
     requests := requests w ++ [ReqGetBrowseItemsFor v a searchOptions];
     paginationState := paginationState w; active := active w;
     nextSubscription := nextSubscription w |}.
Proof. reflexivity. Qed.

Lemma exec_updateParent w scope :
  exec (updateParent scope) w =
  if hasValue scope then
    {| this := set_parent_ (Some (getFirstSucceededRemoteData (findById scope))) (this w);
       requests := requests w ++ [ReqFindById scope];
       paginationState := paginationState w; active := active w;
       nextSubscription := nextSubscription w |}
  else w.
Proof. unfold updateParent, when. destruct (hasValue scope); reflexivity. Qed.

(** What [getFirstSucceededRemoteData] lets through. *)
Lemma getFirstSucceeded_first {A} (pre post : list (RemoteData A)) payload :
  Forall (fun rd => hasSucceeded rd = false) pre ->
  getFirstSucceededRemoteData (pre ++ Succeeded payload :: post) = [Succeeded payload].
Proof.
  unfold getFirstSucceededRemoteData, Rx.take, Rx.filter.
  induction 1 as [|rd pre Hrd _ IH]; cbn.
  - reflexivity.
  - rewrite Hrd. exact IH.
Qed.

Lemma getFirstSucceeded_none {A} (o : list (RemoteData A)) :
  Forall (fun rd => hasSucceeded rd = false) o ->
  getFirstSucceededRemoteData o = [].
Proof.
  unfold getFirstSucceededRemoteData, Rx.take, Rx.filter.
  induction 1 as [|rd pre Hrd _ IH]; cbn.
  - reflexivity.
  - rewrite Hrd. exact IH.
Qed.

Lemma getFirstSucceeded_cases {A} (o : list (RemoteData A)) :
  getFirstSucceededRemoteData o = [] \/
  exists payload, getFirstSucceededRemoteData o = [Succeeded payload].
Proof.
  unfold getFirstSucceededRemoteData, Rx.take, Rx.filter.
  induction o as [|rd o IH]; cbn.
  - now left.
  - destruct rd; cbn; eauto.
Qed.

Lemma exec_goNext_items w current :
  items_ (this w) = Some current ->
  exec goNext w =
  exec (subscribe (getFirstSucceededRemoteData current) (fun items =>
          next ← request (ReqGetNextBrowseItems items) (getNextBrowseItems items);
          assign (set_items_ (Some next)))) w.
Proof.
  intros Hi. unfold goNext, exec, mbind, State_bind, gets. rewrite Hi.
  destruct (subscribe _ _ w). reflexivity.
Qed.

Lemma exec_goPrev_items w current :
  items_ (this w) = Some current ->
  exec goPrev w =
  exec (subscribe (getFirstSucceededRemoteData current) (fun items =>
          prev ← request (ReqGetPrevBrowseItems items) (getPrevBrowseItems items);
          assign (set_items_ (Some prev)))) w.
Proof.
  intros Hi. unfold goPrev, exec, mbind, State_bind, gets. rewrite Hi.
  destruct (subscribe _ _ w). reflexivity.
Qed.

Lemma exec_goNext_entries w current :
  items_ (this w) = None -> browseEntries_ (this w) = Some current ->
  exec goNext w =
  exec (subscribe (getFirstSucceededRemoteData current) (fun entries =>
          next ← request (ReqGetNextBrowseEntries entries) (getNextBrowseEntries entries);
          assign (set_browseEntries_ (Some next)))) w.
Proof.
  intros Hi He. unfold goNext, exec, mbind, State_bind, gets. rewrite Hi, He.
  destruct (subscribe _ _ w). reflexivity.
Qed.

Lemma exec_goPrev_entries w current :
  items_ (this w) = None -> browseEntries_ (this w) = Some current ->
  exec goPrev w =
  exec (subscribe (getFirstSucceededRemoteData current) (fun entries =>
          prev ← request (ReqGetPrevBrowseEntries entries) (getPrevBrowseEntries entries);
          assign (set_browseEntries_ (Some prev)))) w.
Proof.
  intros Hi He. unfold goPrev, exec, mbind, State_bind, gets. rewrite Hi, He.
  destruct (subscribe _ _ w). reflexivity.
Qed.

Lemma exec_go_empty w :
  items_ (this w) = None -> browseEntries_ (this w) = None ->
  exec goNext w = w /\ exec goPrev w = w.
Proof.
  intros Hi He. unfold goNext, goPrev, exec, mbind, State_bind, gets.
  rewrite Hi, He. split; reflexivity.
Qed.

Lemma exec_subscribe_nil {A} (next : A -> State World unit) w :
  exec (subscribe [] next) w = exec register w.
Proof. reflexivity. Qed.

Lemma exec_subscribe_one {A} (next : A -> State World unit) x w :
  exec (subscribe [x] next) w = exec (next x) (exec register w).
Proof.
  unfold subscribe, register, exec, mbind, State_bind, mret, State_ret. cbn.
  unfold mbind, State_bind, mret, State_ret.
  destruct (next x _). reflexivity.
Qed.

(** C6: [goNext] and [goPrev] act on the populated slot only.  With both
    slots empty the world is returned as it was: no request, no assignment.
    With a populated slot they request the adjacent page from the first
    successful value of that slot and store the result in the same slot;
    while that slot has not delivered a success, nothing is requested and
    no field changes. *)
Theorem C6_go_acts_on_populated_slot w :
  (items_ (this w) = None -> browseEntries_ (this w) = None ->
   exec goNext w = w /\ exec goPrev w = w) /\
  (forall pre payload post,
     items_ (this w) = Some (pre ++ Succeeded payload :: post) ->
     Forall (fun rd => hasSucceeded rd = false) pre ->
     (this (exec goNext w) =
        set_items_ (Some (getNextBrowseItems (Succeeded payload))) (this w) /\
      requests (exec goNext w) =
        requests w ++ [ReqGetNextBrowseItems (Succeeded payload)]) /\
     (this (exec goPrev w) =
        set_items_ (Some (getPrevBrowseItems (Succeeded payload))) (this w) /\
      requests (exec goPrev w) =
        requests w ++ [ReqGetPrevBrowseItems (Succeeded payload)])) /\
  (forall pre payload post,
     items_ (this w) = None ->
     browseEntries_ (this w) = Some (pre ++ Succeeded payload :: post) ->
     Forall (fun rd => hasSucceeded rd = false) pre ->
     (this (exec goNext w) =
        set_browseEntries_ (Some (getNextBrowseEntries (Succeeded payload))) (this w) /\
      requests (exec goNext w) =
        requests w ++ [ReqGetNextBrowseEntries (Succeeded payload)]) /\
     (this (exec goPrev w) =
        set_browseEntries_ (Some (getPrevBrowseEntries (Succeeded payload))) (this w) /\
      requests (exec goPrev w) =
        requests w ++ [ReqGetPrevBrowseEntries (Succeeded payload)])) /\
  (forall current,
     items_ (this w) = Some current ->
     Forall (fun rd => hasSucceeded rd = false) current ->
     (this (exec goNext w) = this w /\ requests (exec goNext w) = requests w) /\
     (this (exec goPrev w) = this w /\ requests (exec goPrev w) = requests w)) /\
  (forall current,
     items_ (this w) = None -> browseEntries_ (this w) = Some current ->
     Forall (fun rd => hasSucceeded rd = false) current ->
     (this (exec goNext w) = this w /\ requests (exec goNext w) = requests w) /\
     (this (exec goPrev w) = this w /\ requests (exec goPrev w) = requests w)).
Proof.
  repeat apply conj.
  - apply exec_go_empty.
  - intros pre payload post Hi Hpre.
    rewrite (exec_goNext_items _ _ Hi), (exec_goPrev_items _ _ Hi).
    rewrite (getFirstSucceeded_first _ _ _ Hpre), !exec_subscribe_one.
    repeat split.
  - intros pre payload post Hi He Hpre.
    rewrite (exec_goNext_entries _ _ Hi He), (exec_goPrev_entries _ _ Hi He).
    rewrite (getFirstSucceeded_first _ _ _ Hpre), !exec_subscribe_one.
    repeat split.
  - intros current Hi Hnone.
    rewrite (exec_goNext_items _ _ Hi), (exec_goPrev_items _ _ Hi).
    rewrite (getFirstSucceeded_none _ Hnone), !exec_subscribe_nil.
    repeat split.
  - intros current Hi He Hnone.
    rewrite (exec_goNext_entries _ _ Hi He), (exec_goPrev_entries _ _ Hi He).
    rewrite (getFirstSucceeded_none _ Hnone), !exec_subscribe_nil.
    repeat split.
Qed.

(** C10: with both slots populated, [goNext] and [goPrev] take the items
    branch: the entries slot keeps its observable, every request they make
    is an items request built from the first success of the items slot,
    and the items slot receives the adjacent page. *)
Theorem C10_items_branch_first w currentItems currentEntries :
  items_ (this w) = Some currentItems ->
  browseEntries_ (this w) = Some currentEntries ->
  (browseEntries_ (this (exec goNext w)) = Some currentEntries /\
   browseEntries_ (this (exec goPrev w)) = Some currentEntries) /\
  ((this (exec goNext w) = this w /\ requests (exec goNext w) = requests w /\
    this (exec goPrev w) = this w /\ requests (exec goPrev w) = requests w) \/
   exists payload,
     getFirstSucceededRemoteData currentItems = [Succeeded payload] /\
     items_ (this (exec goNext w)) = Some (getNextBrowseItems (Succeeded payload)) /\
     requests (exec goNext w) =
       requests w ++ [ReqGetNextBrowseItems (Succeeded payload)] /\
     items_ (this (exec goPrev w)) = Some (getPrevBrowseItems (Succeeded payload)) /\
     requests (exec goPrev w) =
       requests w ++ [ReqGetPrevBrowseItems (Succeeded payload)]).
Proof.
  intros Hi He.
  rewrite (exec_goNext_items _ _ Hi), (exec_goPrev_items _ _ Hi).
  destruct (getFirstSucceeded_cases currentItems) as [E | [payload E]]; rewrite E.
  - rewrite !exec_subscribe_nil. cbn. auto 10.
  - rewrite !exec_subscribe_one. cbn. split; [auto|].
    right. exists payload. auto 10.
Qed.

(** C8: [updateParent] asks for the parent exactly when a scope is given.
    With a scope it makes one [findById] request for it and stores the
    first successful result of that request in [parent$]; without one the
    world is returned as it was, so nothing is requested and [parent$]
    keeps its value. *)
Theorem C8_updateParent_iff_scope w scope :
  (hasValue scope = true ->
   parent_ (this (exec (updateParent scope) w)) =
     Some (getFirstSucceededRemoteData (findById scope)) /\
   requests (exec (updateParent scope) w) = requests w ++ [ReqFindById scope]) /\
  (hasValue scope = false -> exec (updateParent scope) w = w) /\
  (requests (exec (updateParent scope) w) <> requests w <-> hasValue scope = true).
Proof.
  rewrite exec_updateParent. destruct (hasValue scope); cbn.
  - split; [auto|]. split; [discriminate|]. split; [reflexivity|].
    intros _ E. apply (f_equal length) in E. rewrite length_app in E.
    cbn in E. lia.
  - split; [discriminate|]. split; [reflexivity|]. split; [|discriminate].
    intros E. now contradict E.
Qed.

(** *** Fields that stay as the initialisers set them *)

Section Keeps.

Variable Q : BrowseByMetadataPageComponent -> Prop.

Lemma keeps_ret {A} (a : A) : keeps Q (mret a).
Proof. intros w Hw. exact Hw. Qed.

Lemma keeps_bind {A B} (m : State World A) (f : A -> State World B) :
  keeps Q m -> (forall a, keeps Q (f a)) -> keeps Q (m ≫= f).
Proof.
  intros Hm Hf w Hw. unfold exec, mbind, State_bind.
  specialize (Hm w Hw). unfold exec in Hm.
  destruct (m w) as [a w1]. apply (Hf a w1 Hm).
Qed.

Lemma keeps_gets {A} (f : World -> A) : keeps Q (gets f).
Proof. intros w Hw. exact Hw. Qed.

Lemma keeps_request {A} r (a : A) : keeps Q (request r a).
Proof. intros w Hw. exact Hw. Qed.

Lemma keeps_register : keeps Q register.
Proof. intros w Hw. exact Hw. Qed.

Lemma keeps_unsubscribe sub : keeps Q (unsubscribe sub).
Proof. intros w Hw. exact Hw. Qed.

Lemma keeps_clearPagination key : keeps Q (clearPagination key).
Proof. intros w Hw. exact Hw. Qed.

Lemma keeps_assign f : (forall c, Q c -> Q (f c)) -> keeps Q (assign f).
Proof. intros Hf w Hw. apply Hf, Hw. Qed.

Lemma keeps_when c (m : State World unit) : keeps Q m -> keeps Q (when c m).
Proof. intros Hm. destruct c; [exact Hm | apply keeps_ret]. Qed.

Lemma keeps_forEach {A} (f : A -> State World unit) xs :
  (forall x, keeps Q (f x)) -> keeps Q (forEach f xs).
Proof.
  intros Hf. induction xs as [|x xs IH]; cbn.
  - apply keeps_ret.
  - apply keeps_bind; [apply Hf | intros _; exact IH].
Qed.

Lemma keeps_subscribe {A} (o : Rx.Observable A) next :
  (forall x, keeps Q (next x)) -> keeps Q (subscribe o next).
Proof.
  intros Hn. unfold subscribe.
  apply keeps_bind; [apply keeps_register | intros sub].
  apply keeps_bind; [apply keeps_forEach, Hn | intros _; apply keeps_ret].
Qed.

End Keeps.

Create HintDb keeps.

#[local] Hint Resolve keeps_ret keeps_gets keeps_request keeps_register
  keeps_unsubscribe keeps_clearPagination : keeps.

Ltac keeps_step :=
  lazymatch goal with
  | |- keeps _ (mbind _ _) => apply keeps_bind; [|intros ?]
  | |- keeps _ (assign _) =>
      apply keeps_assign; intros [] [? ?]; split; assumption
  | |- keeps _ (subscribe _ _) => apply keeps_subscribe; intros ?
  | |- keeps _ (forEach _ _) => apply keeps_forEach; intros ?
  | |- keeps _ (when _ _) => apply keeps_when
  | |- keeps _ (match ?x with _ => _ end) => destruct x
  | |- keeps _ _ => solve [auto with keeps]
  end.

Lemma keeps_updatePage searchOptions : keeps configured (updatePage searchOptions).
Proof. unfold updatePage. repeat keeps_step. Qed.

Lemma keeps_updatePageWithItems searchOptions v a :
  keeps configured (updatePageWithItems searchOptions v a).
Proof. unfold updatePageWithItems. repeat keeps_step. Qed.

Lemma keeps_updateParent scope : keeps configured (updateParent scope).
Proof. unfold updateParent. repeat keeps_step. Qed.

#[local] Hint Resolve keeps_updatePage keeps_updatePageWithItems
  keeps_updateParent : keeps.

Lemma keeps_ngOnInit_next snapshot : keeps configured (ngOnInit_next snapshot).
Proof.
  destruct snapshot as [[params currentPage] currentSort]. unfold ngOnInit_next.
  repeat keeps_step.
Qed.

Lemma keeps_goPrev : keeps configured goPrev.
Proof. unfold goPrev. repeat keeps_step. Qed.

Lemma keeps_goNext : keeps configured goNext.
Proof. unfold goNext. repeat keeps_step. Qed.

Lemma keeps_ngOnDestroy : keeps configured ngOnDestroy.
Proof. unfold ngOnDestroy. repeat keeps_step. Qed.

#[local] Hint Resolve keeps_ngOnInit_next : keeps.

Lemma keeps_ngOnInit : keeps configured ngOnInit.
Proof.
  unfold ngOnInit, updateStartsWithTextOptions. cbv zeta. repeat keeps_step.
Qed.

Lemma keeps_invoke c : keeps configured (invoke c).
Proof.
  destruct c; cbn;
    auto using keeps_ngOnInit, keeps_goPrev, keeps_goNext, keeps_ngOnDestroy
      with keeps.
Qed.

(** In every state the component can reach, the pagination id is ['bbm']
    and the default browse id is ['author']. *)
Lemma reachable_configured cs ps :
  configured (this (exec (run cs) (new_World ps))).
Proof.
  apply (keeps_forEach configured invoke cs keeps_invoke). split; reflexivity.
Qed.

(** *** Teardown *)

Lemma filter_hasValue_omap (l : list (option Subscription)) :
  List.filter hasValue l = Some <$> omap (fun sub => sub) l.
Proof.
  induction l as [|[sub|] l IH]; cbn.
  - reflexivity.
  - now rewrite IH.
  - exact IH.
Qed.

Lemma exec_release (l : list Subscription) w :
  exec (forEach (fun sub : option Subscription =>
                   match sub with
                   | Some sub => unsubscribe sub
                   | None => mret tt
                   end) (Some <$> l)) w =
  {| this := this w;
     requests := requests w ++ (ReqUnsubscribe <$> l);
     paginationState := paginationState w;
     active := active w ∖ list_to_set l;
     nextSubscription := nextSubscription w |}.
Proof.
  revert w. induction l as [|sub l IH]; intros w; cbn.
  - destruct w; cbn. rewrite app_nil_r. f_equal.
    symmetry. apply difference_empty_L.
  - unfold exec, mbind, State_bind in *. cbn.
    rewrite IH. cbn. rewrite <- app_assoc. cbn. f_equal.
    apply difference_difference_l_L.
Qed.

Lemma exec_ngOnDestroy w :
  exec ngOnDestroy w =
  {| this := this w;
     requests := requests w ++ (ReqUnsubscribe <$> tracked (this w)) ++
                 [ReqClearPagination (id (paginationConfig (this w)))];
     paginationState := delete (id (paginationConfig (this w))) (paginationState w);
     active := active w ∖ list_to_set (tracked (this w));
     nextSubscription := nextSubscription w |}.
Proof.
  unfold ngOnDestroy, exec, mbind, State_bind, gets.
  rewrite filter_hasValue_omap. fold (tracked (this w)).
  pose proof (exec_release (tracked (this w)) w) as E.
  unfold exec in E.
  destruct (forEach _ _ w) as [u w1]. cbn in E. subst w1. cbn.
  now rewrite <- app_assoc.
Qed.

(** C7: [ngOnDestroy] calls [unsubscribe] once on every entry of [subs]
    that is not null or undefined, in order, whether or not that
    subscription was still active, so that none of them is active
    afterwards; it then clears the pagination state kept under the id of
    its pagination config, which is ['bbm'] in every state the component
    can reach.  It assigns no field. *)
Theorem C7_ngOnDestroy_releases w :
  (forall sub, Some sub ∈ subs (this w) -> sub ∉ active (exec ngOnDestroy w)) /\
  requests (exec ngOnDestroy w) =
    requests w ++ (ReqUnsubscribe <$> tracked (this w)) ++
    [ReqClearPagination (id (paginationConfig (this w)))] /\
  paginationState (exec ngOnDestroy w) !! id (paginationConfig (this w)) = None /\
  this (exec ngOnDestroy w) = this w /\
  (forall cs ps,
     id (paginationConfig (this (exec (run cs) (new_World ps)))) = BBM_PAGINATION_ID).
Proof.
  rewrite exec_ngOnDestroy. cbn. repeat apply conj.
  - intros sub Hsub Hin. apply elem_of_difference in Hin as [_ Hn].
    apply Hn, elem_of_list_to_set, list_elem_of_omap. now exists (Some sub).
  - reflexivity.
  - apply lookup_delete_eq.
  - reflexivity.
  - intros cs ps. now destruct (reachable_configured cs ps) as [-> _].
Qed.

(** *** A snapshot of the parameters arrives *)

Lemma exec_ngOnInit_next w params currentPage currentSort :
  let browseId := prop params "id" .|| Js.Str (defaultBrowseId (this w)) in
  let authority := prop params "authority" in
  let value := Js.plus (prop params "value") .|| prop params "value" .|| Js.Str "" in
  let startsWith := Js.plus (prop params "startsWith") .|| prop params "startsWith" in
  let searchOptions := browseParamsToOptions params currentPage currentSort browseId in
  exec (ngOnInit_next (params, currentPage, currentSort)) w =
  exec (updateParent (prop params "scope"))
    (exec (if isNotEmpty value
           then updatePageWithItems searchOptions value authority
           else updatePage searchOptions)
       {| this := set_startsWith startsWith
                    (set_value value
                       (set_authority authority (set_browseId browseId (this w))));
          requests := requests w;
          paginationState := paginationState w; active := active w;
          nextSubscription := nextSubscription w |}).
Proof.
  cbv zeta. unfold ngOnInit_next, exec, mbind, State_bind, gets, assign, modify.
  cbn.
  destruct (isNotEmpty _); reflexivity.
Qed.

Lemma prop_Some (params : Params) key v :
  params !! key = Some v -> prop params key = v.
Proof. intros E. unfold prop. now rewrite E. Qed.

Lemma prop_None (params : Params) key :
  params !! key = None -> prop params key = Js.Undefined.
Proof. intros E. unfold prop. now rewrite E. Qed.

Lemma fields_after_ngOnInit_next w params currentPage currentSort :
  let w' := exec (ngOnInit_next (params, currentPage, currentSort)) w in
  value (this w') =
    Js.plus (prop params "value") .|| prop params "value" .|| Js.Str "" /\
  startsWith (this w') =
    Js.plus (prop params "startsWith") .|| prop params "startsWith" /\
  authority (this w') = prop params "authority" /\
  browseId (this w') = prop params "id" .|| Js.Str (defaultBrowseId (this w)).
Proof.
  cbv zeta. rewrite exec_ngOnInit_next. cbv zeta. rewrite !exec_updateParent.
  destruct (isNotEmpty _);
    rewrite ?exec_updatePageWithItems, ?exec_updatePage;
    destruct (hasValue (prop params "scope")); repeat split.
Qed.

Lemma isNotEmpty_filter_value (pv : Js.Value) :
  isNotEmpty (Js.plus pv .|| pv .|| Js.Str "") = Js.ToBoolean pv.
Proof.
  unfold Js.or at 2.
  destruct (Js.ToBoolean (Js.plus pv)) eqn:En.
  - (* the number is kept: it is never empty, and [pv] cannot be falsy *)
    unfold Js.or. rewrite En. cbn.
    destruct pv as [| |s|n]; cbn in *; try discriminate.
    + destruct (String.eqb_spec s ""); [subst; discriminate | reflexivity].
    + exact (eq_sym En).
  - unfold Js.or. destruct (Js.ToBoolean pv) eqn:Ev; [|reflexivity].
    destruct pv; cbn in *; try discriminate.
    + unfold isNotEmpty. cbn. exact Ev.
    + reflexivity.
Qed.

(** C5: when a snapshot of the merged parameters arrives, the filter value
    is [+params.value || params.value || ''].  If it is not empty, the
    component requests the items for it, with the authority parameter and
    the search options, and stores them in the items slot; otherwise it
    requests the browse entries for the search options and stores them in
    the entries slot.  The metadata definition of the search options is the
    browse id, which is the component's default browse id when the [id]
    parameter is absent, and that default is ['author'] in every state the
    component can reach. *)
Theorem C5_mode_selection w params currentPage currentSort :
  let w' := exec (ngOnInit_next (params, currentPage, currentSort)) w in
  let filterValue := value (this w') in
  let searchOptions :=
    browseParamsToOptions params currentPage currentSort (browseId (this w')) in
  let parentRequests :=
    if hasValue (prop params "scope") then [ReqFindById (prop params "scope")]
    else [] in
  filterValue = Js.plus (prop params "value") .|| prop params "value" .|| Js.Str "" /\
  isNotEmpty filterValue = Js.ToBoolean (prop params "value") /\
  authority (this w') = prop params "authority" /\
  (isNotEmpty filterValue = true ->
   items_ (this w') =
     Some (getBrowseItemsFor filterValue (authority (this w')) searchOptions) /\
   requests w' =
     requests w ++
     [ReqGetBrowseItemsFor filterValue (authority (this w')) searchOptions] ++
     parentRequests) /\
  (isNotEmpty filterValue = false ->
   browseEntries_ (this w') = Some (getBrowseEntriesFor searchOptions) /\
   items_ (this w') = None /\
   requests w' = requests w ++ [ReqGetBrowseEntriesFor searchOptions] ++ parentRequests) /\
  metadataDefinition searchOptions = browseId (this w') /\
  browseId (this w') = prop params "id" .|| Js.Str (defaultBrowseId (this w)) /\
  (params !! "id" = None -> browseId (this w') = Js.Str (defaultBrowseId (this w))) /\
  (forall cs ps, defaultBrowseId (this (exec (run cs) (new_World ps))) = "author").
Proof.
  cbv zeta. rewrite exec_ngOnInit_next. cbv zeta.
  rewrite !exec_updateParent.
  set (v := Js.plus (prop params "value") .|| prop params "value" .|| Js.Str "").
  assert (Hid : params !! "id" = None ->
                prop params "id" .|| Js.Str (defaultBrowseId (this w)) =
                Js.Str (defaultBrowseId (this w))).
  { intros E. unfold prop. now rewrite E. }
  assert (Hdef : forall cs ps,
             defaultBrowseId (this (exec (run cs) (new_World ps))) = "author").
  { intros cs ps. now destruct (reachable_configured cs ps) as [_ ->]. }
  pose proof (isNotEmpty_filter_value (prop params "value")) as Hv. fold v in Hv.
  destruct (isNotEmpty v) eqn:Ev;
    rewrite ?exec_updatePageWithItems, ?exec_updatePage;
    destruct (hasValue (prop params "scope")); cbn;
    rewrite ?app_nil_r, <- ?app_assoc; cbn; rewrite ?Ev;
    repeat apply conj; try reflexivity; try discriminate; auto.
Qed.

(** C4 (as amended): when a snapshot of the merged parameters arrives, a
    [value] or [startsWith] parameter that is a numeric string with a value
    other than zero is stored as that number, and one that is not a numeric
    string is stored unchanged; an absent [startsWith] stays undefined and
    an absent [value] becomes the empty string.  [browseParamsToOptions]
    computes the same [startsWith].  Every non-empty string of decimal
    digits that are not all zeros, such as "5", is a numeric string with a
    value other than zero, and its number is the integer it spells. *)
Theorem C4_numeric_coercion w params currentPage currentSort metadata :
  let w' := exec (ngOnInit_next (params, currentPage, currentSort)) w in
  (forall s, params !! "value" = Some (Js.Str s) ->
     (isNonZeroNumeric s = true -> value (this w') = Js.Num (Js.StringToNumber s)) /\
     (isNumeric s = false -> value (this w') = Js.Str s)) /\
  (params !! "value" = None -> value (this w') = Js.Str "") /\
  (forall s, params !! "startsWith" = Some (Js.Str s) ->
     (isNonZeroNumeric s = true ->
      startsWith (this w') = Js.Num (Js.StringToNumber s)) /\
     (isNumeric s = false -> startsWith (this w') = Js.Str s)) /\
  (params !! "startsWith" = None -> startsWith (this w') = Js.Undefined) /\
  searchStartsWith (browseParamsToOptions params currentPage currentSort metadata) =
    startsWith (this w') /\
  (forall s, isDecimalDigits s = true -> decimalValue s <> 0%N ->
     isNonZeroNumeric s = true /\
     Js.StringToNumber s = Js.roundInteger (decimalValue s)).
Proof.
  cbv zeta.
  destruct (fields_after_ngOnInit_next w params currentPage currentSort)
    as (-> & -> & _).
  assert (Hnum : forall s, isNonZeroNumeric s = true ->
            Js.plus (Js.Str s) .|| Js.Str s = Js.Num (Js.StringToNumber s)).
  { intros s Hs. unfold Js.or, Js.plus. cbn [Js.ToNumber].
    unfold isNonZeroNumeric in Hs. now rewrite Hs. }
  assert (Hnan : forall s, isNumeric s = false ->
            Js.plus (Js.Str s) .|| Js.Str s = Js.Str s).
  { intros s Hs. unfold Js.or, Js.plus. cbn.
    unfold isNumeric in Hs. apply negb_false_iff in Hs. now rewrite Hs. }
  assert (Hkeep : forall s, Js.Str s .|| Js.Str "" = Js.Str s).
  { intros s. unfold Js.or. cbn.
    destruct (String.eqb_spec s ""); [now subst | reflexivity]. }
  repeat apply conj.
  - intros s E. rewrite (prop_Some _ _ _ E). split; intros Hs.
    + rewrite (Hnum s Hs). unfold Js.or.
      unfold isNonZeroNumeric in Hs. now rewrite Hs.
    + now rewrite (Hnan s Hs), Hkeep.
  - intros E. now rewrite (prop_None _ _ E).
  - intros s E. rewrite (prop_Some _ _ _ E). split; intros Hs.
    + now rewrite (Hnum s Hs).
    + now rewrite (Hnan s Hs).
  - intros E. now rewrite (prop_None _ _ E).
  - reflexivity.
  - intros s Hs Hnz. split.
    + destruct (JsSpec.decimalDigits_numeric s Hs) as [_ ->].
      now apply negb_true_iff, N.eqb_neq.
    + now apply JsSpec.StringToNumber_decimalDigits.
Qed.

(** C1 (as amended): [updatePage] stores the entries fetch and clears the
    items slot; [updatePageWithItems] stores the items fetch and leaves the
    entries slot as it was. *)
Theorem C1_update_slots w searchOptions v a :
  (items_ (this (exec (updatePage searchOptions) w)) = None /\
   browseEntries_ (this (exec (updatePage searchOptions) w)) =
     Some (getBrowseEntriesFor searchOptions)) /\
  (items_ (this (exec (updatePageWithItems searchOptions v a) w)) =
     Some (getBrowseItemsFor v a searchOptions) /\
   browseEntries_ (this (exec (updatePageWithItems searchOptions v a) w)) =
     browseEntries_ (this w)).
Proof.
  rewrite exec_updatePage, exec_updatePageWithItems. cbn. auto.
Qed.

End Properties.

(** *** The component on the sample data layer *)

Abbreviation sample := (sample_Collaborators ∅ ∅).

(** The entries slot survives [updatePageWithItems]: called on a page that
    shows entries, it leaves both slots populated.  [ngOnInit] gets there
    by itself when the query carries a value, since it first calls
    [updatePage] with the default options. *)
Lemma C1_counterexample :
  browseEntries_ (this sample_entries) <> None /\
  browseEntries_
    (this (exec (@updatePageWithItems _ sample sample_options
                   (Js.Str "Smith") Js.Undefined) sample_entries)) <> None /\
  items_
    (this (exec (@updatePageWithItems _ sample sample_options
                   (Js.Str "Smith") Js.Undefined) sample_entries)) <> None /\
  browseEntries_
    (this (exec (@ngOnInit _ (sample_Collaborators
                                {[ "id" := Js.Str "author" ]}
                                {[ "value" := Js.Str "Smith" ]}))
             sample_new)) <> None /\
  items_
    (this (exec (@ngOnInit _ (sample_Collaborators
                                {[ "id" := Js.Str "author" ]}
                                {[ "value" := Js.Str "Smith" ]}))
             sample_new)) <> None.
Proof. vm_compute. repeat split; discriminate. Qed.

(** ["0"] is a numeric string, yet it is stored as the string it was; and
    a snapshot without [value] stores the empty string, not [undefined]. *)
Lemma C4_counterexample :
  isNumeric "0" = true /\
  value (this (exec (@ngOnInit_next _ sample
                       ({[ "value" := Js.Str "0" ]}, sample_pagination, sample_sort))
                 sample_new)) = Js.Str "0" /\
  ({[ "id" := Js.Str "author" ]} : Params) !! "value" = None /\
  value (this (exec (@ngOnInit_next _ sample
                       ({[ "id" := Js.Str "author" ]}, sample_pagination, sample_sort))
                 sample_new)) = Js.Str "".
Proof. vm_compute. repeat split. Qed.

(** ["5"] is stored as the number 5, ["Sm"] as it is, and a missing
    [startsWith] stays undefined. *)
Lemma C4_witness :
  value (this (exec (@ngOnInit_next _ sample
                       ({[ "value" := Js.Str "5" ]}, sample_pagination, sample_sort))
                 sample_new)) =
    Js.Num (S754_finite false 5629499534213120 (-50)) /\
  startsWith (this (exec (@ngOnInit_next _ sample
                       ({[ "startsWith" := Js.Str "Sm" ]}, sample_pagination,
                        sample_sort))
                 sample_new)) = Js.Str "Sm" /\
  startsWith (this (exec (@ngOnInit_next _ sample
                       ({[ "value" := Js.Str "5" ]}, sample_pagination, sample_sort))
                 sample_new)) = Js.Undefined.
Proof.
  split; [|split].
  - destruct (@C4_numeric_coercion _ sample sample_new {[ "value" := Js.Str "5" ]}
                sample_pagination sample_sort Js.Undefined) as (Hvalue & _).
    destruct (Hvalue "5") as (Hnumber & _); [reflexivity|].
    apply Hnumber. vm_compute. reflexivity.
  - destruct (@C4_numeric_coercion _ sample sample_new
                {[ "startsWith" := Js.Str "Sm" ]}
                sample_pagination sample_sort Js.Undefined)
      as (_ & _ & HstartsWith & _).
    destruct (HstartsWith "Sm") as (_ & Hstring); [reflexivity|].
    apply Hstring. vm_compute. reflexivity.
  - destruct (@C4_numeric_coercion _ sample sample_new {[ "value" := Js.Str "5" ]}
                sample_pagination sample_sort Js.Undefined)
      as (_ & _ & _ & Habsent & _).
    apply Habsent. reflexivity.
Defined.

(** A snapshot with the value "Smith" and no id fetches items for the
    default browse id; one without a value does not. *)
Lemma C5_witness :
  items_ (this (exec (@ngOnInit_next _ sample
                        ({[ "value" := Js.Str "Smith" ]}, sample_pagination,
                         sample_sort))
                  sample_new)) = Some (sample_page ["Item 1"; "Item 2"]) /\
  browseId (this (exec (@ngOnInit_next _ sample
                        ({[ "value" := Js.Str "Smith" ]}, sample_pagination,
                         sample_sort))
                  sample_new)) = Js.Str "author" /\
  items_ (this (exec (@ngOnInit_next _ sample
                        ({[ "id" := Js.Str "subject" ]}, sample_pagination,
                         sample_sort))
                  sample_new)) = None.
Proof.
  split; [|split].
  - destruct (@C5_mode_selection _ sample sample_new {[ "value" := Js.Str "Smith" ]}
                sample_pagination sample_sort) as (_ & _ & _ & Hitems & _).
    apply Hitems. vm_compute. reflexivity.
  - destruct (@C5_mode_selection _ sample sample_new {[ "value" := Js.Str "Smith" ]}
                sample_pagination sample_sort)
      as (_ & _ & _ & _ & _ & _ & _ & Hdefault & _).
    apply Hdefault. reflexivity.
  - destruct (@C5_mode_selection _ sample sample_new {[ "id" := Js.Str "subject" ]}
                sample_pagination sample_sort) as (_ & _ & _ & _ & Hentries & _).
    apply Hentries. vm_compute. reflexivity.
Defined.

(** On the fresh component [goNext] changes nothing; on a page of items
    it asks for the next items, on a page of entries [goPrev] asks for the
    previous entries. *)
Lemma C6_witness :
  exec (@goNext _ sample) sample_new = sample_new /\
  requests (exec (@goNext _ sample) sample_items) =
    requests sample_items ++
    [@ReqGetNextBrowseItems sample_DataModel (Succeeded ["Item 1"; "Item 2"])] /\
  requests (exec (@goPrev _ sample) sample_entries) =
    requests sample_entries ++
    [@ReqGetPrevBrowseEntries sample_DataModel
       (Succeeded ["Smith, J."; "Smith, K."])].
Proof.
  split; [|split].
  - apply (@C6_go_acts_on_populated_slot _ sample sample_new); reflexivity.
  - destruct (@C6_go_acts_on_populated_slot _ sample sample_items)
      as (_ & Hitems & _).
    apply (Hitems [Loading] ["Item 1"; "Item 2"] []);
      [reflexivity | repeat constructor].
  - destruct (@C6_go_acts_on_populated_slot _ sample sample_entries)
      as (_ & _ & Hentries & _).
    apply (Hentries [Loading] ["Smith, J."; "Smith, K."] []);
      [reflexivity | reflexivity | repeat constructor].
Defined.

(** [subs] holds a null entry, an active subscription twice and one that
    is no longer active. *)
Lemma C7_witness :
  2 ∉ active (exec (@ngOnDestroy sample_DataModel)
                {| this := set_subs [None; Some 2; Some 5; Some 2]
                             new_BrowseByMetadataPageComponent;
                   requests := []; paginationState := ∅; active := {[ 2 ]};
                   nextSubscription := 6 |}).
Proof.
  apply (@C7_ngOnDestroy_releases _ sample).
  vm_compute. apply list_elem_of_In. cbn. auto.
Defined.

(** With a scope one [findById] is requested; without one nothing
    changes. *)
Lemma C8_witness :
  requests (exec (@updateParent _ sample (Js.Str "c0ffee")) sample_entries) =
    requests sample_entries ++ [ReqFindById (Js.Str "c0ffee")] /\
  exec (@updateParent _ sample Js.Undefined) sample_entries = sample_entries.
Proof.
  split.
  - apply (@C8_updateParent_iff_scope _ sample sample_entries (Js.Str "c0ffee")).
    reflexivity.
  - apply (@C8_updateParent_iff_scope _ sample sample_entries Js.Undefined).
    reflexivity.
Defined.

(** On a page that holds both slots, the entries slot is the same after
    [goNext] and after [goPrev]. *)
Lemma C10_witness :
  browseEntries_ (this (exec (@goNext _ sample) sample_both)) =
    Some (sample_page ["Smith, J."; "Smith, K."]) /\
  browseEntries_ (this (exec (@goPrev _ sample) sample_both)) =
    Some (sample_page ["Smith, J."; "Smith, K."]).
Proof.
  apply (@C10_items_branch_first _ sample sample_both
           (sample_page ["Item 1"; "Item 2"])
           (sample_page ["Smith, J."; "Smith, K."]));
    reflexivity.
Defined.

End BrowseByMetadataPageSpec.

(** * Properties of the submission form bootstrap *)

Module SubmissionSubmitFormSpec.
Import SubmissionSubmitForm.

Implicit Types (w : World) (definitions : Definitions).

(** *** The stream of default definition ids *)

Lemma last_distinctUntilChangedFrom {A} (P : A -> Prop) (eqb : A -> A -> bool) o :
  (forall x y, P x -> eqb x y = true -> x = y) ->
  Forall P o ->
  forall prev, P prev ->
    last (prev :: Rx.distinctUntilChangedFrom eqb prev o) = last (prev :: o).
Proof.
  intros Heq. induction 1 as [|x o Hx _ IH]; intros prev Hprev;
    cbn [Rx.distinctUntilChangedFrom].
  - reflexivity.
  - destruct (eqb prev x) eqn:E.
    + apply Heq in E; [|exact Hprev]. subst x.
      rewrite (IH prev Hprev). now rewrite last_cons_cons.
    + rewrite !last_cons_cons. apply IH, Hx.
Qed.

Lemma last_distinctUntilChanged {A} (P : A -> Prop) (eqb : A -> A -> bool) o :
  (forall x y, P x -> eqb x y = true -> x = y) ->
  Forall P o ->
  last (Rx.distinctUntilChanged eqb o) = last o.
Proof.
  intros Heq Ho. destruct Ho as [|x o Hx Ho]; [reflexivity|].
  now apply (last_distinctUntilChangedFrom P).
Qed.

Lemma getDefaultSubmissionDefinition_map_isId d :
  isId (getDefaultSubmissionDefinition_map d).
Proof.
  unfold getDefaultSubmissionDefinition_map, pop.
  destruct (last _); exact I.
Qed.

Lemma strictEq_isId a b : isId a -> Js.strictEq a b = true -> a = b.
Proof.
  destruct a, b; cbn; try discriminate; try contradiction; auto.
  intros _ E. apply String.eqb_eq in E. now subst.
Qed.

Lemma last_getDefaultSubmissionDefinition store :
  last (getDefaultSubmissionDefinition store) =
  last (Rx.map getDefaultSubmissionDefinition_map
          (Rx.filter getDefaultSubmissionDefinition_filter store)).
Proof.
  apply (last_distinctUntilChanged isId).
  - apply strictEq_isId.
  - apply Forall_forall. intros v Hv. apply list_elem_of_In, in_map_iff in Hv.
    destruct Hv as (d & <- & _). apply getDefaultSubmissionDefinition_map_isId.
Qed.

Lemma getDefaultSubmissionDefinition_snoc pre definitions :
  definitions <> [] ->
  Rx.map getDefaultSubmissionDefinition_map
    (Rx.filter getDefaultSubmissionDefinition_filter (pre ++ [Some definitions])) =
  Rx.map getDefaultSubmissionDefinition_map
    (Rx.filter getDefaultSubmissionDefinition_filter pre) ++
  [pop (List.filter (flagged definitions) (Object_keys definitions))].
Proof.
  intros Hne. unfold Rx.map, Rx.filter. rewrite List.filter_app, List.map_app.
  f_equal. cbn. destruct definitions; [contradiction | reflexivity].
Qed.

Lemma filter_nothing_qualifies pre :
  Forall (fun d => getDefaultSubmissionDefinition_filter d = false) pre ->
  Rx.filter getDefaultSubmissionDefinition_filter pre = [].
Proof.
  unfold Rx.filter. induction 1 as [|d pre Hd _ IH]; cbn.
  - reflexivity.
  - now rewrite Hd.
Qed.

Lemma filter_none_flagged definitions keys :
  Forall (fun k => flagged definitions k = false) keys ->
  List.filter (flagged definitions) keys = [].
Proof.
  induction 1 as [|k keys Hk _ IH]; cbn.
  - reflexivity.
  - now rewrite Hk.
Qed.

Lemma pop_last_flagged definitions before k after :
  Object_keys definitions = before ++ k :: after ->
  flagged definitions k = true ->
  Forall (fun k' => flagged definitions k' = false) after ->
  pop (List.filter (flagged definitions) (Object_keys definitions)) = Js.Str k.
Proof.
  intros -> Hk Hafter. rewrite List.filter_app. cbn. rewrite Hk.
  rewrite (filter_none_flagged _ _ Hafter). unfold pop. now rewrite last_snoc.
Qed.

(** A map with a flagged key has a last flagged key. *)
Lemma last_flagged_exists definitions keys :
  Exists (fun k => flagged definitions k = true) keys ->
  exists before k after,
    keys = before ++ k :: after /\ flagged definitions k = true /\
    Forall (fun k' => flagged definitions k' = false) after.
Proof.
  induction keys as [|k0 keys IH]; intros Hex.
  - inversion Hex.
  - destruct (Exists_dec (fun k => flagged definitions k = true) keys) as [Hin | Hout].
    + destruct (IH Hin) as (before & k & after & -> & Hk & Hafter).
      now exists (k0 :: before), k, after.
    + inversion Hex as [? ? Hk0 | ? ? Hlater]; [|contradiction]. subst.
      exists [], k0, keys. repeat split; [exact Hk0|].
      apply Forall_forall. intros k Hk. apply not_true_is_false. intros Hf.
      apply Hout, Exists_exists. exists k. split; [|exact Hf].
      exact Hk.
Qed.

(** *** The subscriber of [ngOnInit] *)

Lemma exec_ngOnInit_last store w :
  exec (ngOnInit store) w =
  match last (getDefaultSubmissionDefinition store) with
  | Some definitionId =>
      {| this := set_isLoading false (set_definitionId definitionId (this w));
         dispatched := dispatched w |}
  | None => w
  end.
Proof.
  unfold ngOnInit. generalize (getDefaultSubmissionDefinition store) as ids.
  intros ids. revert w. induction ids as [|v ids IH]; intros w.
  - reflexivity.
  - cbn [forEach]. unfold exec, mbind, State_bind in *. cbn.
    rewrite IH. destruct ids as [|v' ids]; [reflexivity|].
    rewrite last_cons_cons. destruct (last (v' :: ids)) eqn:E; [reflexivity|].
    apply last_None in E. discriminate.
Qed.

(** C2: when a non-empty definitions map arrives whose last key flagged
    [isDefault], in the order of [Object.keys], is [k], the last id that
    [getDefaultSubmissionDefinition] has delivered is [k]; it is the only
    id delivered if no non-empty map arrived before.  The subscriber of
    [ngOnInit] has then set [definitionId] to [k] and [isLoading] to
    false, and changed nothing else. *)
Theorem C2_default_definition w pre definitions before k after :
  Object_keys definitions = before ++ k :: after ->
  flagged definitions k = true ->
  Forall (fun k' => flagged definitions k' = false) after ->
  last (getDefaultSubmissionDefinition (pre ++ [Some definitions])) = Some (Js.Str k) /\
  (Forall (fun d => getDefaultSubmissionDefinition_filter d = false) pre ->
   getDefaultSubmissionDefinition (pre ++ [Some definitions]) = [Js.Str k]) /\
  exec (ngOnInit (pre ++ [Some definitions])) w =
    {| this := {| collectionId := collectionId (this w);
                  submissionId := submissionId (this w);
                  definitionId := Js.Str k;
                  isLoading := false |};
       dispatched := dispatched w |}.
Proof.
  intros Hkeys Hk Hafter.
  assert (Hne : definitions <> []).
  { intros ->. now destruct before. }
  pose proof (pop_last_flagged _ _ _ _ Hkeys Hk Hafter) as Hpop.
  assert (Hlast : last (getDefaultSubmissionDefinition (pre ++ [Some definitions])) =
                  Some (Js.Str k)).
  { rewrite last_getDefaultSubmissionDefinition,
      (getDefaultSubmissionDefinition_snoc _ _ Hne), Hpop.
    apply last_snoc. }
  split; [exact Hlast|]. split.
  - intros Hpre. unfold getDefaultSubmissionDefinition.
    rewrite (getDefaultSubmissionDefinition_snoc _ _ Hne), Hpop.
    now rewrite (filter_nothing_qualifies _ Hpre).
  - rewrite exec_ngOnInit_last, Hlast. reflexivity.
Qed.

(** C9: when a non-empty definitions map arrives in which no key is
    flagged [isDefault], the id delivered for it is [undefined]: it is the
    last id delivered, and the only one if no non-empty map arrived
    before.  The subscriber of [ngOnInit] has then set [definitionId] to
    [undefined] and [isLoading] to false. *)
Theorem C9_no_default_is_undefined w pre definitions :
  definitions <> [] ->
  Forall (fun k => flagged definitions k = false) (Object_keys definitions) ->
  last (getDefaultSubmissionDefinition (pre ++ [Some definitions])) =
    Some Js.Undefined /\
  (Forall (fun d => getDefaultSubmissionDefinition_filter d = false) pre ->
   getDefaultSubmissionDefinition (pre ++ [Some definitions]) = [Js.Undefined]) /\
  exec (ngOnInit (pre ++ [Some definitions])) w =
    {| this := {| collectionId := collectionId (this w);
                  submissionId := submissionId (this w);
                  definitionId := Js.Undefined;
                  isLoading := false |};
       dispatched := dispatched w |}.
Proof.
  intros Hne Hnone.
  assert (Hpop : pop (List.filter (flagged definitions) (Object_keys definitions)) =
                 Js.Undefined).
  { now rewrite (filter_none_flagged _ _ Hnone). }
  assert (Hlast : last (getDefaultSubmissionDefinition (pre ++ [Some definitions])) =
                  Some Js.Undefined).
  { rewrite last_getDefaultSubmissionDefinition,
      (getDefaultSubmissionDefinition_snoc _ _ Hne), Hpop.
    apply last_snoc. }
  split; [exact Hlast|]. split.
  - intros Hpre. unfold getDefaultSubmissionDefinition.
    rewrite (getDefaultSubmissionDefinition_snoc _ _ Hne), Hpop.
    now rewrite (filter_nothing_qualifies _ Hpre).
  - rewrite exec_ngOnInit_last, Hlast. reflexivity.
Qed.

(** *** Input changes *)

(** C3 (as amended): when the changes passed to [ngOnChanges] contain both
    [collectionId] and [submissionId] and both current values are present,
    exactly one [NewSubmissionFormAction] is dispatched, carrying the
    [collectionId] and [submissionId] of the component, and no field is
    assigned; when either of the two is missing from the changes, nothing
    is dispatched. *)
Theorem C3_ngOnChanges_dispatch w (changes : gmap string SimpleChange) :
  (forall cc sc,
     changes !! "collectionId" = Some cc -> changes !! "submissionId" = Some sc ->
     hasValue (currentValue cc) = true -> hasValue (currentValue sc) = true ->
     exec (ngOnChanges changes) w =
       {| this := this w;
          dispatched :=
            dispatched w ++
            [NewSubmissionFormAction (collectionId (this w)) (submissionId (this w))] |}) /\
  (changes !! "collectionId" = None \/ changes !! "submissionId" = None ->
   exec (ngOnChanges changes) w = w).
Proof.
  unfold ngOnChanges. split.
  - intros cc sc -> -> Hc Hs. cbn. rewrite Hc, Hs. reflexivity.
  - intros [-> | ->]; cbn; [reflexivity|].
    now rewrite !andb_false_r.
Qed.

(** The example of the spec: the map [{A: {isDefault: false}, B:
    {isDefault: true}}] arrives after an undefined and an empty one. *)
Lemma C2_witness :
  getDefaultSubmissionDefinition [None; Some []; Some sample_definitions] =
    [Js.Str "B"] /\
  exec (ngOnInit [None; Some []; Some sample_definitions]) sample_bound =
    {| this := {| collectionId := Js.Str "c1"; submissionId := Js.Str "s1";
                  definitionId := Js.Str "B"; isLoading := false |};
       dispatched := [] |}.
Proof.
  destruct (C2_default_definition sample_bound [None; Some []] sample_definitions
              ["A"] "B" []) as (_ & Honly & Hstate);
    [reflexivity | reflexivity | constructor |].
  split; [|exact Hstate].
  apply Honly. repeat constructor.
Defined.

(** A map whose only entry is not a default. *)
Lemma C9_witness :
  getDefaultSubmissionDefinition [Some [("A", {| isDefault := false |})]] =
    [Js.Undefined] /\
  exec (ngOnInit [Some [("A", {| isDefault := false |})]]) sample_bound =
    {| this := {| collectionId := Js.Str "c1"; submissionId := Js.Str "s1";
                  definitionId := Js.Undefined; isLoading := false |};
       dispatched := [] |}.
Proof.
  destruct (C9_no_default_is_undefined sample_bound []
              [("A", {| isDefault := false |})]) as (_ & Honly & Hstate);
    [discriminate | repeat constructor |].
  split; [|exact Hstate].
  apply Honly. constructor.
Defined.

(** Both ids are present and non-empty and [collectionId] has changed,
    but [submissionId] has not: nothing is dispatched. *)
Lemma C3_counterexample :
  let changes : gmap string SimpleChange :=
    {[ "collectionId" := sample_change (Js.Str "c0") (Js.Str "c1") ]} in
  collectionId (this sample_bound) = Js.Str "c1" /\
  submissionId (this sample_bound) = Js.Str "s1" /\
  dispatched (exec (ngOnChanges changes) sample_bound) = [].
Proof. vm_compute. repeat split. Qed.

(** Both inputs set together dispatch one action; [collectionId] alone
    dispatches none. *)
Lemma C3_witness :
  dispatched
    (exec (ngOnChanges
             {[ "collectionId" := sample_change Js.Undefined (Js.Str "c1");
                "submissionId" := sample_change Js.Undefined (Js.Str "s1") ]})
       sample_bound) =
    [NewSubmissionFormAction (Js.Str "c1") (Js.Str "s1")] /\
  exec (ngOnChanges
          {[ "collectionId" := sample_change (Js.Str "c0") (Js.Str "c1") ]})
    sample_bound = sample_bound.
Proof.
  split.
  - destruct (C3_ngOnChanges_dispatch sample_bound
                {[ "collectionId" := sample_change Js.Undefined (Js.Str "c1");
                   "submissionId" := sample_change Js.Undefined (Js.Str "s1") ]})
      as (Hboth & _).
    rewrite (Hboth (sample_change Js.Undefined (Js.Str "c1"))
                   (sample_change Js.Undefined (Js.Str "s1")));
      reflexivity.
  - apply (C3_ngOnChanges_dispatch sample_bound). right. reflexivity.
Defined.

End SubmissionSubmitFormSpec.

(** * The browse page over its life *)

Module BrowseByMetadataPageLifecycle.
Import BrowseByMetadataPage BrowseByMetadataPageSpec.

Section Lifecycle.

Context `{DataModel} `{!Collaborators}.

Implicit Types (w : World) (params : Params).

(** *** What a snapshot of the parameters leaves behind *)

Lemma exec_forEach_app {S A} (f : A -> State S unit) l1 l2 (s : S) :
  exec (forEach f (l1 ++ l2)) s = exec (forEach f l2) (exec (forEach f l1) s).
Proof.
  revert s. induction l1 as [|x l1 IH]; intros s; cbn.
  - reflexivity.
  - unfold exec, mbind, State_bind in *. destruct (f x s) as [u s1]. apply IH.
Qed.

Lemma exec_forEach_one {S A} (f : A -> State S unit) x (s : S) :
  exec (forEach f [x]) s = exec (f x) s.
Proof.
  cbn. unfold exec, mbind, State_bind, mret, State_ret.
  destruct (f x s). reflexivity.
Qed.

Lemma world_after_ngOnInit_next w params currentPage currentSort :
  let c := this w in
  let browseId' := prop params "id" .|| Js.Str (defaultBrowseId c) in
  let authority' := prop params "authority" in
  let value' := Js.plus (prop params "value") .|| prop params "value" .|| Js.Str "" in
  let startsWith' := Js.plus (prop params "startsWith") .|| prop params "startsWith" in
  let searchOptions := browseParamsToOptions params currentPage currentSort browseId' in
  let scope' := prop params "scope" in
  exec (ngOnInit_next (params, currentPage, currentSort)) w =
  {| this :=
       {| browseEntries_ :=
            if isNotEmpty value' then browseEntries_ c
            else Some (getBrowseEntriesFor searchOptions);
          items_ :=
            if isNotEmpty value'
            then Some (getBrowseItemsFor value' authority' searchOptions)
            else None;
          parent_ :=
            if hasValue scope'
            then Some (getFirstSucceededRemoteData (findById scope'))
            else parent_ c;
          paginationConfig := paginationConfig c;
          currentPagination_ := currentPagination_ c;
          currentSort_ := currentSort_ c;
          subs := subs c;
          defaultBrowseId := defaultBrowseId c;
          browseId := browseId';
          startsWithType := startsWithType c;
          startsWithOptions := startsWithOptions c;
          value := value';
          authority := authority';
          startsWith := startsWith' |};
     requests :=
       requests w ++
       [if isNotEmpty value'
        then ReqGetBrowseItemsFor value' authority' searchOptions
        else ReqGetBrowseEntriesFor searchOptions] ++
       (if hasValue scope' then [ReqFindById scope'] else []);
     paginationState := paginationState w;
     active := active w;
     nextSubscription := nextSubscription w |}.
Proof.
  cbv zeta. rewrite exec_ngOnInit_next. cbv zeta. rewrite exec_updateParent.
  destruct (isNotEmpty _);
    rewrite ?exec_updatePageWithItems, ?exec_updatePage;
    destruct (hasValue (prop params "scope")); cbn;
    rewrite ?app_nil_r, <- ?app_assoc; reflexivity.
Qed.

(** *** Where a parameter comes from *)

Lemma prop_Object_assign (routeParams queryParams : Params) key :
  prop (Object_assign routeParams queryParams) key =
  match queryParams !! key with
  | Some v => v
  | None => prop routeParams key
  end.
Proof.
  unfold prop, Object_assign. rewrite lookup_union.
  destruct (queryParams !! key), (routeParams !! key); reflexivity.
Qed.

(** X1: a parameter of the query string hides the route parameter of the
    same name, even when it is empty.  So the browse id is the query's [id]
    if the query has one (the default if that is empty), else the route's,
    else the default; and an empty [value] in the query takes a route that
    names a value back to the list of entries. *)
Theorem X1_query_hides_route w routeParams queryParams currentPage currentSort :
  let w' :=
    exec (ngOnInit_next
            (ngOnInit_map (routeParams, queryParams, currentPage, currentSort))) w in
  (forall v, queryParams !! "id" = Some v ->
     browseId (this w') = v .|| Js.Str (defaultBrowseId (this w))) /\
  (queryParams !! "id" = None ->
     browseId (this w') =
       prop routeParams "id" .|| Js.Str (defaultBrowseId (this w))) /\
  (queryParams !! "value" = Some (Js.Str "") ->
     value (this w') = Js.Str "" /\ items_ (this w') = None) /\
  (forall key v, queryParams !! key = Some v ->
     prop (Object_assign routeParams queryParams) key = v) /\
  (forall key, queryParams !! key = None ->
     prop (Object_assign routeParams queryParams) key = prop routeParams key).
Proof.
  cbv zeta. unfold ngOnInit_map. rewrite world_after_ngOnInit_next. cbn.
  repeat apply conj.
  - intros v E. now rewrite prop_Object_assign, E.
  - intros E. now rewrite prop_Object_assign, E.
  - intros E. rewrite !prop_Object_assign, E. split; reflexivity.
  - intros key v E. now rewrite prop_Object_assign, E.
  - intros key E. now rewrite prop_Object_assign, E.
Qed.

(** *** The filter value is well formed *)




(** *** Later snapshots *)

Lemma defaultBrowseId_forEach_ngOnInit_next snapshots w :
  defaultBrowseId (this (exec (forEach ngOnInit_next snapshots) w)) =
  defaultBrowseId (this w).
Proof.
  induction snapshots as [|[[params currentPage] currentSort] l IH] using rev_ind.
  - reflexivity.
  - rewrite exec_forEach_app, exec_forEach_one, world_after_ngOnInit_next.
    exact IH.
Qed.

(** X3: of a sequence of snapshots the last one decides: the browse id,
    the authority, the filter value, [startsWith] and the items slot are
    what the last snapshot alone would give.  The two other slots can be
    stale: the entries slot keeps what it held before the last snapshot
    when that snapshot carries a filter value, and [parent$] keeps the
    parent resolved earlier when the last snapshot has no scope. *)
Theorem X3_last_snapshot_decides w earlier params currentPage currentSort :
  let before := exec (forEach ngOnInit_next earlier) w in
  let after :=
    exec (forEach ngOnInit_next (earlier ++ [(params, currentPage, currentSort)])) w in
  let alone := exec (ngOnInit_next (params, currentPage, currentSort)) w in
  (browseId (this after) = browseId (this alone) /\
   authority (this after) = authority (this alone) /\
   value (this after) = value (this alone) /\
   startsWith (this after) = startsWith (this alone) /\
   items_ (this after) = items_ (this alone)) /\
  (Js.ToBoolean (prop params "value") = false ->
   browseEntries_ (this after) = browseEntries_ (this alone)) /\
  (Js.ToBoolean (prop params "value") = true ->
   browseEntries_ (this after) = browseEntries_ (this before)) /\
  (hasValue (prop params "scope") = true ->
   parent_ (this after) = parent_ (this alone)) /\
  (hasValue (prop params "scope") = false ->
   parent_ (this after) = parent_ (this before)).
Proof.
  cbv zeta. rewrite exec_forEach_app, exec_forEach_one.
  rewrite !world_after_ngOnInit_next. cbn.
  rewrite defaultBrowseId_forEach_ngOnInit_next.
  rewrite isNotEmpty_filter_value.
  repeat apply conj; try reflexivity; intros ->; reflexivity.
Qed.

(** *** Start-up *)

Lemma exec_forEach_cons {S A} (f : A -> State S unit) x l (s : S) :
  exec (forEach f (x :: l)) s = exec (forEach f l) (exec (f x) s).
Proof.
  rewrite <- (exec_forEach_one f x s). apply (exec_forEach_app f [x] l).
Qed.

Lemma exec_ngOnInit w :
  let c := this w in
  let sortConfig := {| field := "default"; direction := ASC |} in
  let defaults :=
    {| metadataDefinition := Js.Str (defaultBrowseId c);
       pagination := paginationConfig c; sort := sortConfig;
       searchStartsWith := Js.Undefined; scope := Js.Undefined |} in
  let currentPagination :=
    getCurrentPagination (id (paginationConfig c)) (paginationConfig c) in
  let currentSort := getCurrentSort (id (paginationConfig c)) sortConfig in
  let sub := nextSubscription w in
  let subscribed :=
    {| this :=
         set_currentSort_ (Some currentSort)
           (set_currentPagination_ (Some currentPagination)
              (set_items_ None
                 (set_browseEntries_ (Some (getBrowseEntriesFor defaults)) c)));
       requests :=
         requests w ++
         [ReqGetBrowseEntriesFor defaults;
          ReqGetCurrentPagination (id (paginationConfig c)) (paginationConfig c);
          ReqGetCurrentSort (id (paginationConfig c)) sortConfig];
       paginationState := paginationState w;
       active := {[sub]} ∪ active w;
       nextSubscription := S sub |} in
  let delivered :=
    exec (forEach ngOnInit_next
            (Rx.map ngOnInit_map
               (observableCombineLatest route_params route_queryParams
                  currentPagination currentSort))) subscribed in
  exec ngOnInit w =
  exec updateStartsWithTextOptions
    {| this := set_subs (subs (this delivered) ++ [Some sub]) (this delivered);
       requests := requests delivered;
       paginationState := paginationState delivered;
       active := active delivered;
       nextSubscription := nextSubscription delivered |}.
Proof.
  cbv zeta. unfold ngOnInit, subscribe, register, updatePage, request, assign,
    modify, gets, exec, mbind, State_bind, mret, State_ret. cbn.
  rewrite <- !app_assoc. cbn.
  destruct (forEach _ _ _) as [u delivered]. reflexivity.
Qed.

Lemma frame_forEach_ngOnInit_next snapshots w :
  let w' := exec (forEach ngOnInit_next snapshots) w in
  subs (this w') = subs (this w) /\
  active w' = active w /\
  nextSubscription w' = nextSubscription w /\
  paginationState w' = paginationState w /\
  (exists more, requests w' = requests w ++ more) /\
  (is_Some (browseEntries_ (this w)) -> is_Some (browseEntries_ (this w'))).
Proof.
  cbv zeta.
  induction snapshots as [|[[params currentPage] currentSort] l IH] using rev_ind.
  - repeat split; [exists []; now rewrite app_nil_r | auto].
  - destruct IH as (Hsubs & Hactive & Hnext & Hstate & [more Hreq] & Hentries).
    rewrite exec_forEach_app, exec_forEach_one, world_after_ngOnInit_next. cbn.
    repeat split; try assumption.
    + rewrite Hreq, <- app_assoc. eauto.
    + intros Hw. destruct (isNotEmpty _); [auto | eauto].
Qed.

Lemma subs_after_ngOnInit w :
  subs (this (exec ngOnInit w)) = subs (this w) ++ [Some (nextSubscription w)].
Proof.
  rewrite exec_ngOnInit. cbv zeta.
  match goal with |- context [exec (forEach ngOnInit_next ?l) ?w0] =>
    destruct (frame_forEach_ngOnInit_next l w0) as (Hsubs & _)
  end.
  cbn in *. now rewrite Hsubs.
Qed.

(** X5: [ngOnInit] subscribes exactly once and tracks that subscription:
    [subs] grows by the new subscription, which is active afterwards, and
    no other subscription is added or released.  Whatever the route, its
    first request is the entries fetch for the default browse id with the
    component's pagination config and the default ascending sort, followed
    by the current pagination and the current sort; so the entries slot is
    populated when it returns.  It does not touch the pagination state,
    and it offers 27 starts-with options. *)
Theorem X5_ngOnInit_subscribes_once w :
  let w' := exec ngOnInit w in
  let c := this w in
  let sortConfig := {| field := "default"; direction := ASC |} in
  let defaults :=
    {| metadataDefinition := Js.Str (defaultBrowseId c);
       pagination := paginationConfig c; sort := sortConfig;
       searchStartsWith := Js.Undefined; scope := Js.Undefined |} in
  subs (this w') = subs c ++ [Some (nextSubscription w)] /\
  active w' = {[nextSubscription w]} ∪ active w /\
  nextSubscription w' = S (nextSubscription w) /\
  (exists more,
     requests w' =
       requests w ++
       [ReqGetBrowseEntriesFor defaults;
        ReqGetCurrentPagination (id (paginationConfig c)) (paginationConfig c);
        ReqGetCurrentSort (id (paginationConfig c)) sortConfig] ++ more) /\
  is_Some (browseEntries_ (this w')) /\
  paginationState w' = paginationState w /\
  length <$> startsWithOptions (this w') = Some 27.
Proof.
  cbv zeta. rewrite exec_ngOnInit. cbv zeta.
  match goal with |- context [exec (forEach ngOnInit_next ?l) ?w0] =>
    destruct (frame_forEach_ngOnInit_next l w0)
      as (Hsubs & Hactive & Hnext & Hstate & [more Hreq] & Hentries);
    set (delivered := exec (forEach ngOnInit_next l) w0) in *
  end.
  cbn in *. rewrite Hsubs, Hactive, Hnext, Hstate, Hreq.
  repeat split.
  - exists more. now rewrite <- app_assoc.
  - apply Hentries. eauto.
Qed.

(** *** Slots that are never cleared *)

Ltac keeps_go tac :=
  lazymatch goal with
  | |- keeps _ (mbind _ _) => apply keeps_bind; [|intros ?]
  | |- keeps _ (assign _) => apply keeps_assign; intros [] ?; cbn in *; tac
  | |- keeps _ (subscribe _ _) => apply keeps_subscribe; intros ?
  | |- keeps _ (forEach _ _) => apply keeps_forEach; intros ?
  | |- keeps _ (when _ _) => apply keeps_when
  | |- keeps _ (match ?x with _ => _ end) => destruct x
  | |- keeps _ _ =>
      solve [auto using keeps_ret, keeps_gets, keeps_request, keeps_register,
               keeps_unsubscribe, keeps_clearPagination]
  end.

Ltac unfold_methods :=
  unfold invoke, ngOnInit, ngOnInit_next, ngOnDestroy, goPrev, goNext,
    updatePage, updatePageWithItems, updateParent, updateStartsWithTextOptions;
  cbv zeta.

Lemma keeps_entries_populated call :
  keeps (fun c => is_Some (browseEntries_ c)) (invoke call).
Proof. destruct call; unfold_methods; repeat keeps_go eauto. Qed.

Lemma keeps_parent_populated call :
  keeps (fun c => is_Some (parent_ c)) (invoke call).
Proof. destruct call; unfold_methods; repeat keeps_go eauto. Qed.

(** X4: no method ever clears the entries slot or [parent$]: once
    populated they stay populated through every sequence of calls.  Since
    [ngOnInit] populates the entries slot, it is populated at every moment
    of the component's life after [ngOnInit]. *)
Theorem X4_entries_and_parent_never_cleared w calls :
  (is_Some (browseEntries_ (this w)) ->
   is_Some (browseEntries_ (this (exec (run calls) w)))) /\
  (is_Some (parent_ (this w)) ->
   is_Some (parent_ (this (exec (run calls) w)))) /\
  is_Some (browseEntries_ (this (exec (run (CallNgOnInit :: calls)) w))).
Proof.
  assert (He : forall w', is_Some (browseEntries_ (this w')) ->
                          is_Some (browseEntries_ (this (exec (run calls) w')))).
  { intros w'. apply (keeps_forEach _ invoke calls keeps_entries_populated). }
  split; [apply He|]. split.
  - apply (keeps_forEach _ invoke calls keeps_parent_populated).
  - unfold run. rewrite exec_forEach_cons. apply He. cbn [invoke].
    rewrite exec_ngOnInit. cbv zeta.
    match goal with |- context [exec (forEach ngOnInit_next ?l) ?w0] =>
      destruct (frame_forEach_ngOnInit_next l w0) as (_ & _ & _ & _ & _ & Hentries)
    end.
    cbn in *. apply Hentries. eauto.
Qed.

(** *** From start-up to teardown *)

Lemma keeps_tracked sub call :
  call <> CallNgOnInit -> keeps (fun c => Some sub ∈ subs c) (invoke call).
Proof.
  destruct call; intros Hcall; try contradiction;
    unfold_methods; repeat keeps_go eauto.
Qed.

Lemma tracked_after_invoke sub call w :
  Some sub ∈ subs (this w) -> Some sub ∈ subs (this (exec (invoke call) w)).
Proof.
  intros Hsub. destruct call;
    try (apply (keeps_tracked sub); [discriminate | exact Hsub]).
  cbn [invoke]. rewrite subs_after_ngOnInit.
  apply elem_of_app. now left.
Qed.

Lemma tracked_after_run sub calls w :
  Some sub ∈ subs (this w) -> Some sub ∈ subs (this (exec (run calls) w)).
Proof.
  revert w. induction calls as [|call calls IH]; intros w Hsub.
  - exact Hsub.
  - unfold run. rewrite exec_forEach_cons. apply IH, tracked_after_invoke, Hsub.
Qed.

(** X6: the subscription that [ngOnInit] makes is released by
    [ngOnDestroy], whatever is called in between: after [ngOnInit], any
    sequence of calls and then [ngOnDestroy], that subscription is not
    active, and [ngOnDestroy] has called [unsubscribe] on it. *)
Theorem X6_ngOnInit_subscription_released w calls :
  let sub := nextSubscription w in
  let w' := exec (run (CallNgOnInit :: calls ++ [CallNgOnDestroy])) w in
  (sub ∉ active w') /\ (ReqUnsubscribe sub ∈ requests w').
Proof.
  cbv zeta. unfold run.
  rewrite exec_forEach_cons, exec_forEach_app, exec_forEach_one. cbn [invoke].
  set (w1 := exec ngOnInit w).
  assert (H1 : Some (nextSubscription w) ∈ subs (this w1)).
  { unfold w1. rewrite subs_after_ngOnInit.
    apply elem_of_app. right. constructor. }
  pose proof (tracked_after_run _ calls w1 H1) as H2. fold (run calls).
  set (w2 := exec (run calls) w1) in *.
  assert (Ht : nextSubscription w ∈ tracked (this w2)).
  { apply list_elem_of_omap. now exists (Some (nextSubscription w)). }
  rewrite exec_ngOnDestroy. cbn. split.
  - intros [_ Hn]%elem_of_difference. apply Hn, elem_of_list_to_set, Ht.
  - apply elem_of_app. right. apply elem_of_app. left.
    apply list_elem_of_fmap. now exists (nextSubscription w).
Qed.

(** *** Teardown *)

(** X7: [ngOnDestroy] releases the tracked subscriptions and nothing
    else: a subscription is active afterwards exactly when it was active
    before and is not an entry of [subs].  It clears the pagination state
    under its own id only; what is kept under any other key stays. *)
Theorem X7_ngOnDestroy_touches_only_its_own w :
  let w' := exec ngOnDestroy w in
  (forall sub, sub ∈ active w' <-> sub ∈ active w /\ Some sub ∉ subs (this w)) /\
  (forall key, key <> id (paginationConfig (this w)) ->
     paginationState w' !! key = paginationState w !! key) /\
  nextSubscription w' = nextSubscription w.
Proof.
  cbv zeta. rewrite exec_ngOnDestroy. cbn. repeat apply conj.
  - intros sub. rewrite elem_of_difference, elem_of_list_to_set.
    unfold tracked. rewrite list_elem_of_omap. split.
    + intros [Ha Hn]. split; [exact Ha|]. intros Hs. apply Hn.
      now exists (Some sub).
    + intros [Ha Hn]. split; [exact Ha|]. intros ([s|] & Hs & E); [|discriminate].
      injection E as ->. contradiction.
  - intros key Hkey. now apply lookup_delete_ne.
  - reflexivity.
Qed.

(** X8: tearing down twice leaves the component, the active
    subscriptions and the pagination state as one teardown does; the second
    teardown only repeats the same [unsubscribe] and [clearPagination]
    calls. *)
Theorem X8_ngOnDestroy_twice w :
  let once := exec ngOnDestroy w in
  let twice := exec ngOnDestroy once in
  this twice = this once /\
  active twice = active once /\
  paginationState twice = paginationState once /\
  requests twice =
    requests once ++
    (ReqUnsubscribe <$> tracked (this w)) ++
    [ReqClearPagination (id (paginationConfig (this w)))].
Proof.
  cbv zeta. rewrite !exec_ngOnDestroy. cbn. repeat apply conj.
  - reflexivity.
  - apply difference_twice_L.
  - apply delete_delete_eq.
  - reflexivity.
Qed.

(** *** Paging twice *)

(** X9: paging composes.  After [goNext] on a page of items that has
    arrived, a second [goNext] (or a [goPrev]) works on the first success of
    the page the first call requested: the two requests are logged in that
    order and the items slot ends up holding the second answer. *)
Theorem X9_paging_composes w pre payload post pre' payload' post' :
  items_ (this w) = Some (pre ++ Succeeded payload :: post) ->
  Forall (fun rd => hasSucceeded rd = false) pre ->
  getNextBrowseItems (Succeeded payload) = pre' ++ Succeeded payload' :: post' ->
  Forall (fun rd => hasSucceeded rd = false) pre' ->
  (this (exec goNext (exec goNext w)) =
     set_items_ (Some (getNextBrowseItems (Succeeded payload'))) (this w) /\
   requests (exec goNext (exec goNext w)) =
     requests w ++
     [ReqGetNextBrowseItems (Succeeded payload);
      ReqGetNextBrowseItems (Succeeded payload')]) /\
  (this (exec goPrev (exec goNext w)) =
     set_items_ (Some (getPrevBrowseItems (Succeeded payload'))) (this w) /\
   requests (exec goPrev (exec goNext w)) =
     requests w ++
     [ReqGetNextBrowseItems (Succeeded payload);
      ReqGetPrevBrowseItems (Succeeded payload')]).
Proof.
  intros Hi Hpre Hnext Hpre'.
  assert (H1 : exec goNext w =
               {| this := set_items_ (Some (getNextBrowseItems (Succeeded payload)))
                            (this w);
                  requests := requests w ++ [ReqGetNextBrowseItems (Succeeded payload)];
                  paginationState := paginationState w;
                  active := {[nextSubscription w]} ∪ active w;
                  nextSubscription := S (nextSubscription w) |}).
  { rewrite (exec_goNext_items _ _ Hi), (getFirstSucceeded_first _ _ _ Hpre).
    now rewrite exec_subscribe_one. }
  rewrite H1.
  rewrite (exec_goNext_items _ (pre' ++ Succeeded payload' :: post'))
    by (cbn; now rewrite Hnext).
  rewrite (exec_goPrev_items _ (pre' ++ Succeeded payload' :: post'))
    by (cbn; now rewrite Hnext).
  rewrite (getFirstSucceeded_first _ _ _ Hpre'), !exec_subscribe_one.
  unfold exec, request, assign, modify, mbind, State_bind. cbn.
  rewrite <- !app_assoc. repeat split.
Qed.

End Lifecycle.

(** *** The life of the sample page *)

(** The route names the subject index and the value "Smith"; the query
    string empties the value. *)
Lemma X1_witness :
  browseId
    (this (exec (@ngOnInit_next _ sample
                   (ngOnInit_map
                      ({[ "id" := Js.Str "subject"; "value" := Js.Str "Smith" ]},
                       {[ "value" := Js.Str "" ]}, sample_pagination, sample_sort)))
             sample_new)) = Js.Str "subject" /\
  items_
    (this (exec (@ngOnInit_next _ sample
                   (ngOnInit_map
                      ({[ "id" := Js.Str "subject"; "value" := Js.Str "Smith" ]},
                       {[ "value" := Js.Str "" ]}, sample_pagination, sample_sort)))
             sample_new)) = None.
Proof.
  destruct (@X1_query_hides_route _ sample sample_new
              {[ "id" := Js.Str "subject"; "value" := Js.Str "Smith" ]}
              {[ "value" := Js.Str "" ]} sample_pagination sample_sort)
    as (_ & Hroute & Hempty & _).
  split.
  - rewrite Hroute by reflexivity. reflexivity.
  - apply Hempty. reflexivity.
Defined.


(** A snapshot with a value and a scope is followed by one with neither:
    the parent resolved for the first is still there. *)
Lemma X3_witness :
  parent_
    (this (exec (forEach (@ngOnInit_next _ sample)
                   ([({[ "value" := Js.Str "Smith"; "scope" := Js.Str "c0ffee" ]},
                      sample_pagination, sample_sort)] ++
                    [({[ "id" := Js.Str "subject" ]}, sample_pagination,
                      sample_sort)]))
             sample_new)) =
  Some [Succeeded ("Community 1" : string)].
Proof.
  destruct (@X3_last_snapshot_decides _ sample sample_new
              [({[ "value" := Js.Str "Smith"; "scope" := Js.Str "c0ffee" ]},
                sample_pagination, sample_sort)]
              {[ "id" := Js.Str "subject" ]} sample_pagination sample_sort)
    as (_ & _ & _ & _ & Hstale).
  rewrite Hstale by reflexivity. reflexivity.
Defined.

(** Paging, switching to items and tearing down leave the entries slot
    populated. *)
Lemma X4_witness :
  is_Some
    (browseEntries_
       (this (exec (@run _ sample
                      [CallGoNext;
                       CallUpdatePageWithItems sample_options (Js.Str "Smith")
                         Js.Undefined;
                       CallNgOnDestroy])
                sample_entries))).
Proof.
  destruct (@X4_entries_and_parent_never_cleared _ sample sample_entries
              [CallGoNext;
               CallUpdatePageWithItems sample_options (Js.Str "Smith") Js.Undefined;
               CallNgOnDestroy]) as (Hentries & _).
  apply Hentries. vm_compute. eauto.
Defined.

(** Subscription 2 is tracked, subscription 7 is not; the page keeps
    pagination state under its own key and another component under
    ["other"]. *)
Lemma X7_witness :
  let w : @World sample_DataModel :=
    {| this := set_subs [None; Some 2] new_BrowseByMetadataPageComponent;
       requests := [];
       paginationState :=
         {[ "bbm" := (sample_pagination, sample_sort);
            "other" := (sample_pagination, sample_sort) ]};
       active := {[ 2; 7 ]};
       nextSubscription := 8 |} in
  paginationState (exec ngOnDestroy w) !! "other" =
    Some (sample_pagination, sample_sort) /\
  7 ∈ active (exec ngOnDestroy w).
Proof.
  intros w.
  destruct (@X7_ngOnDestroy_touches_only_its_own _ w) as (Hactive & Hstate & _).
  split.
  - rewrite Hstate by discriminate. reflexivity.
  - apply Hactive. split.
    + vm_compute. set_solver.
    + vm_compute. intros Hin. apply list_elem_of_In in Hin. cbn in Hin.
      destruct Hin as [[=]|[[=]|[]]].
Defined.

(** Two steps forward from the first page of items. *)
Lemma X9_witness :
  requests (exec (@goNext _ sample) (exec (@goNext _ sample) sample_items)) =
    requests sample_items ++
    [@ReqGetNextBrowseItems sample_DataModel (Succeeded ["Item 1"; "Item 2"]);
     @ReqGetNextBrowseItems sample_DataModel (Succeeded ["Item 3"])].
Proof.
  destruct (@X9_paging_composes _ sample sample_items
              [Loading] ["Item 1"; "Item 2"] [] [Loading] ["Item 3"] [])
    as ((_ & Hrequests) & _);
    [reflexivity | repeat constructor | reflexivity | repeat constructor |].
  exact Hrequests.
Defined.

End BrowseByMetadataPageLifecycle.

(** * The submission form from the first change to the default sections *)

Module SubmissionBootstrapSpec.
Import SubmissionSubmitForm SubmissionSubmitFormSpec.

Implicit Types (w : World) (store : Rx.Observable (option Definitions)).

(** *** Waiting for the definitions *)

Lemma getDefaultSubmissionDefinition_nothing store :
  Forall (fun d => getDefaultSubmissionDefinition_filter d = false) store ->
  getDefaultSubmissionDefinition store = [].
Proof.
  intros Hstore. unfold getDefaultSubmissionDefinition.
  now rewrite (filter_nothing_qualifies _ Hstore).
Qed.

Lemma getDefaultSubmissionDefinition_something store :
  Exists (fun d => getDefaultSubmissionDefinition_filter d = true) store ->
  is_Some (last (getDefaultSubmissionDefinition store)).
Proof.
  intros Hstore. rewrite last_getDefaultSubmissionDefinition.
  apply last_is_Some. unfold Rx.map, Rx.filter.
  apply Exists_exists in Hstore as (d & Hd & Hq).
  intros E. apply map_eq_nil in E.
  assert (Hin : In d (List.filter getDefaultSubmissionDefinition_filter store)).
  { apply filter_In. split; [now apply list_elem_of_In | exact Hq]. }
  rewrite E in Hin. contradiction.
Qed.

(** X10: the form keeps loading until a non-empty definitions map
    arrives.  While the store delivers only undefined or empty maps,
    [ngOnInit] changes nothing at all; as soon as one non-empty map has
    arrived, [isLoading] is false.  [ngOnInit] never sets [isLoading] back
    to true, never dispatches, and never touches the two ids. *)
Theorem X10_loading_until_definitions store w :
  let w' := exec (ngOnInit store) w in
  (Forall (fun d => getDefaultSubmissionDefinition_filter d = false) store ->
   w' = w) /\
  (Exists (fun d => getDefaultSubmissionDefinition_filter d = true) store ->
   isLoading (this w') = false) /\
  (isLoading (this w) = false -> isLoading (this w') = false) /\
  dispatched w' = dispatched w /\
  collectionId (this w') = collectionId (this w) /\
  submissionId (this w') = submissionId (this w).
Proof.
  cbv zeta. rewrite exec_ngOnInit_last. repeat apply conj.
  - intros Hstore. now rewrite (getDefaultSubmissionDefinition_nothing _ Hstore).
  - intros Hstore.
    destruct (getDefaultSubmissionDefinition_something _ Hstore) as [v ->].
    reflexivity.
  - intros Hw. now destruct (last _).
  - now destruct (last _).
  - now destruct (last _).
  - now destruct (last _).
Qed.

(** *** What the stream of ids can hold *)

Lemma distinctUntilChangedFrom_adjacent {A} (eqb : A -> A -> bool) o :
  forall prev i x y,
    (prev :: Rx.distinctUntilChangedFrom eqb prev o) !! i = Some x ->
    (prev :: Rx.distinctUntilChangedFrom eqb prev o) !! S i = Some y ->
    eqb x y = false.
Proof.
  induction o as [|z o IH]; intros prev i x y Hx Hy;
    cbn [Rx.distinctUntilChangedFrom] in *.
  - destruct i; discriminate.
  - destruct (eqb prev z) eqn:E.
    + exact (IH prev i x y Hx Hy).
    + destruct i as [|i].
      * cbn in Hx, Hy. congruence.
      * exact (IH z i x y Hx Hy).
Qed.

Lemma distinctUntilChanged_adjacent {A} (eqb : A -> A -> bool) o i x y :
  Rx.distinctUntilChanged eqb o !! i = Some x ->
  Rx.distinctUntilChanged eqb o !! S i = Some y ->
  eqb x y = false.
Proof.
  destruct o as [|z o]; [discriminate|].
  apply distinctUntilChangedFrom_adjacent.
Qed.

Lemma distinctUntilChangedFrom_elem {A} (eqb : A -> A -> bool) o :
  forall prev x, x ∈ Rx.distinctUntilChangedFrom eqb prev o -> x ∈ o.
Proof.
  induction o as [|z o IH]; intros prev x; cbn.
  - auto.
  - destruct (eqb prev z).
    + intros Hx. right. exact (IH prev x Hx).
    + intros [->|Hx]%elem_of_cons; [left | right; exact (IH z x Hx)].
Qed.

Lemma distinctUntilChanged_elem {A} (eqb : A -> A -> bool) o x :
  x ∈ Rx.distinctUntilChanged eqb o -> x ∈ o.
Proof.
  destruct o as [|z o]; cbn; [auto|].
  intros [->|Hx]%elem_of_cons; [left | right].
  exact (distinctUntilChangedFrom_elem eqb o z x Hx).
Qed.

Lemma strictEq_refl_isId v : isId v -> Js.strictEq v v = true.
Proof.
  destruct v; cbn; try contradiction; auto. intros _. apply String.eqb_refl.
Qed.

Lemma delivered_elem store v :
  v ∈ getDefaultSubmissionDefinition store ->
  exists definitions,
    Some definitions ∈ store /\ definitions <> [] /\
    v = pop (List.filter (flagged definitions) (Object_keys definitions)).
Proof.
  intros Hv%distinctUntilChanged_elem.
  apply list_elem_of_In, in_map_iff in Hv as (d & <- & Hd).
  apply filter_In in Hd as [Hd Hq].
  destruct d as [definitions|]; [|discriminate].
  exists definitions. split; [now apply list_elem_of_In|]. split.
  - intros ->. discriminate.
  - reflexivity.
Qed.

(** X11: [getDefaultSubmissionDefinition] never delivers the same id twice
    in a row, so the subscriber of [ngOnInit] only runs when the default
    changes. *)
Theorem X11_no_id_twice_in_a_row store i x y :
  getDefaultSubmissionDefinition store !! i = Some x ->
  getDefaultSubmissionDefinition store !! S i = Some y ->
  x <> y.
Proof.
  intros Hx Hy E. subst y.
  pose proof (distinctUntilChanged_adjacent _ _ _ _ _ Hx Hy) as Hne.
  rewrite strictEq_refl_isId in Hne; [discriminate|].
  apply list_elem_of_lookup_2 in Hx.
  destruct (delivered_elem _ _ Hx) as (d & _ & _ & ->).
  apply (getDefaultSubmissionDefinition_map_isId (Some d)).
Qed.

(** X12: every id delivered comes from a non-empty map that the store
    delivered: a key is a key of that map flagged [isDefault], and
    [undefined] stands for a map in which no key is flagged.  Nothing else
    is ever delivered. *)
Theorem X12_delivered_ids_are_defaults store v :
  v ∈ getDefaultSubmissionDefinition store ->
  exists definitions,
    Some definitions ∈ store /\ definitions <> [] /\
    match v with
    | Js.Str k => k ∈ Object_keys definitions /\ flagged definitions k = true
    | Js.Undefined =>
        Forall (fun k => flagged definitions k = false) (Object_keys definitions)
    | _ => False
    end.
Proof.
  intros Hv. destruct (delivered_elem _ _ Hv) as (d & Hd & Hne & ->).
  exists d. split; [exact Hd|]. split; [exact Hne|].
  unfold pop. destruct (last _) as [k|] eqn:El.
  - apply last_Some_elem_of, list_elem_of_In, filter_In in El as [Hk Hf].
    split; [now apply list_elem_of_In | exact Hf].
  - apply last_None in El. apply Forall_forall. intros k Hk.
    apply not_true_is_false. intros Hf.
    assert (Hin : In k (List.filter (flagged d) (Object_keys d))).
    { apply filter_In. split; [now apply list_elem_of_In | exact Hf]. }
    rewrite El in Hin. contradiction.
Qed.

(** *** The effects *)

Lemma new__app actions1 actions2 :
  SubmissionObjectEffects.new_ (actions1 ++ actions2) =
  SubmissionObjectEffects.new_ actions1 ++ SubmissionObjectEffects.new_ actions2.
Proof.
  unfold SubmissionObjectEffects.new_, SubmissionObjectEffects.ofType,
    Rx.map, Rx.filter.
  now rewrite List.filter_app, List.map_app.
Qed.

(** X13: from the inputs to the default definition.  When [ngOnChanges]
    sees both ids changed and present, what it dispatches makes the effect
    [new$] deliver exactly one more [InitDefaultDefinitionAction], carrying
    the [collectionId] and [submissionId] of the component; when one of the
    two ids did not change, [new$] delivers nothing more. *)
Theorem X13_changes_reach_new_effect w (changes : gmap string SimpleChange) :
  let through l :=
    SubmissionObjectEffects.new_ (SubmissionObjectEffects.toStore <$> l) in
  (forall cc sc,
     changes !! "collectionId" = Some cc -> changes !! "submissionId" = Some sc ->
     hasValue (currentValue cc) = true -> hasValue (currentValue sc) = true ->
     through (dispatched (exec (ngOnChanges changes) w)) =
       through (dispatched w) ++
       [SubmissionObjectEffects.InitDefaultDefinitionAction
          (collectionId (this w)) (submissionId (this w))]) /\
  (changes !! "collectionId" = None \/ changes !! "submissionId" = None ->
   through (dispatched (exec (ngOnChanges changes) w)) = through (dispatched w)).
Proof.
  cbv zeta. unfold ngOnChanges. split.
  - intros cc sc -> -> Hc Hs. cbn. rewrite Hc, Hs. cbn.
    change (dispatched (exec _ w)) with
      (dispatched w ++
       [NewSubmissionFormAction (collectionId (this w)) (submissionId (this w))]).
    now rewrite fmap_app, new__app.
  - intros [-> | ->]; cbn; [reflexivity|]. now rewrite !andb_false_r.
Qed.

Lemma initForm__spec actions : forall calls,
  SubmissionObjectEffects.initForm_ actions calls =
  (List.map (fun _ => SubmissionObjectEffects.CompleteInitSubmissionFormAction)
     (SubmissionObjectEffects.ofType SubmissionObjectEffects.INIT_SUBMISSION_FORM
        actions),
   calls ++
   List.map (fun action =>
               SubmissionObjectEffects.LoadDefaultSections
                 (SubmissionObjectEffects.collectionId
                    (SubmissionObjectEffects.payload action))
                 (SubmissionObjectEffects.submissionId
                    (SubmissionObjectEffects.payload action))
                 (SubmissionObjectEffects.definitionId
                    (SubmissionObjectEffects.payload action)))
     (SubmissionObjectEffects.ofType SubmissionObjectEffects.INIT_SUBMISSION_FORM
        actions)).
Proof.
  unfold SubmissionObjectEffects.initForm_.
  generalize (SubmissionObjectEffects.ofType
                SubmissionObjectEffects.INIT_SUBMISSION_FORM actions) as l.
  induction l as [|a l IH]; intros calls; cbn.
  - now rewrite app_nil_r.
  - unfold mbind, State_bind, mret, State_ret,
      SubmissionObjectEffects.loadDefaultSections, modify in *. cbn.
    rewrite IH. now rewrite <- app_assoc.
Qed.

(** X14: the effect [initForm$] handles the actions one by one, in the
    order of arrival: for an [InitSubmissionFormAction] it asks the section
    service once for the default sections of that action's collection,
    submission and definition ids and delivers one
    [CompleteInitSubmissionFormAction]; for any other action it neither
    calls the service nor delivers anything.  Calls made earlier stay in
    the log, and as many actions are delivered as calls are added. *)
Theorem X14_initForm_one_call_per_action actions1 actions2 calls :
  let '(delivered, calls') :=
    SubmissionObjectEffects.initForm_ (actions1 ++ actions2) calls in
  let '(delivered1, calls1) := SubmissionObjectEffects.initForm_ actions1 calls in
  let '(delivered2, calls2) := SubmissionObjectEffects.initForm_ actions2 calls1 in
  (delivered = delivered1 ++ delivered2 /\ calls' = calls2) /\
  (exists added, calls' = calls ++ added /\ length added = length delivered) /\
  (forall c s d,
     actions2 = [SubmissionObjectEffects.InitSubmissionFormAction c s d] ->
     delivered2 = [SubmissionObjectEffects.CompleteInitSubmissionFormAction] /\
     calls2 = calls1 ++ [SubmissionObjectEffects.LoadDefaultSections c s d]) /\
  (forall action,
     actions2 = [action] ->
     (forall c s d,
        action <> SubmissionObjectEffects.InitSubmissionFormAction c s d) ->
     delivered2 = [] /\ calls2 = calls1).
Proof.
  rewrite !initForm__spec.
  unfold SubmissionObjectEffects.ofType, Rx.filter.
  rewrite !List.filter_app, !List.map_app, <- !app_assoc.
  repeat apply conj.
  - reflexivity.
  - reflexivity.
  - eexists. split; [reflexivity|]. now rewrite !length_app, !length_map.
  - intros c s d ->. cbn. rewrite <- ?app_assoc. split; reflexivity.
  - intros action -> Hother.
    destruct action as [| c s d | | |];
      cbn; rewrite ?app_nil_r, <- ?app_assoc; auto.
    now contradiction (Hother c s d).
Qed.

(** *** A collection chosen in the form *)

(** X15: [onCollectionChange] replaces the collection id without
    dispatching anything, and a later [ngOnChanges] whose guard passes
    dispatches the id chosen that way: the action carries the component's
    own [collectionId] and [submissionId], whatever current values the
    change records hold. *)
Theorem X15_chosen_collection_is_dispatched w chosen
    (changes : gmap string SimpleChange) cc sc :
  changes !! "collectionId" = Some cc ->
  changes !! "submissionId" = Some sc ->
  hasValue (currentValue cc) = true ->
  hasValue (currentValue sc) = true ->
  dispatched (exec (onCollectionChange chosen) w) = dispatched w /\
  dispatched (exec (ngOnChanges changes) (exec (onCollectionChange chosen) w)) =
    dispatched w ++ [NewSubmissionFormAction chosen (submissionId (this w))].
Proof.
  intros Hcc Hsc Hc Hs. split; [reflexivity|].
  unfold ngOnChanges. rewrite Hcc, Hsc. cbn. rewrite Hc, Hs. reflexivity.
Qed.

(** *** The sample form *)

(** The store has delivered an undefined and an empty map only. *)
Lemma X10_witness : exec (ngOnInit [None; Some []]) sample_bound = sample_bound.
Proof.
  apply (X10_loading_until_definitions [None; Some []] sample_bound).
  repeat constructor.
Defined.

(** The sample map arrives twice, then a map whose default is [A]. *)
Lemma X11_witness :
  getDefaultSubmissionDefinition
    [Some sample_definitions; Some sample_definitions;
     Some [("A", {| isDefault := true |})]] = [Js.Str "B"; Js.Str "A"] /\
  Js.Str "B" <> Js.Str "A".
Proof.
  split; [reflexivity|].
  apply (X11_no_id_twice_in_a_row
           [Some sample_definitions; Some sample_definitions;
            Some [("A", {| isDefault := true |})]] 0);
    reflexivity.
Defined.

Lemma X12_witness :
  exists definitions,
    Some definitions ∈ [None; Some sample_definitions] /\
    definitions <> [] /\
    ("B" ∈ Object_keys definitions /\ flagged definitions "B" = true).
Proof.
  apply (X12_delivered_ids_are_defaults [None; Some sample_definitions]
           (Js.Str "B")).
  vm_compute. constructor.
Defined.

(** Both inputs of the sample form are bound together. *)
Lemma X13_witness :
  SubmissionObjectEffects.new_
    (SubmissionObjectEffects.toStore <$>
     dispatched
       (exec (ngOnChanges
                {[ "collectionId" := sample_change Js.Undefined (Js.Str "c1");
                   "submissionId" := sample_change Js.Undefined (Js.Str "s1") ]})
          sample_bound)) =
  [SubmissionObjectEffects.InitDefaultDefinitionAction (Js.Str "c1") (Js.Str "s1")].
Proof.
  destruct (X13_changes_reach_new_effect sample_bound
              {[ "collectionId" := sample_change Js.Undefined (Js.Str "c1");
                 "submissionId" := sample_change Js.Undefined (Js.Str "s1") ]})
    as (Hboth & _).
  apply (Hboth (sample_change Js.Undefined (Js.Str "c1"))
               (sample_change Js.Undefined (Js.Str "s1")));
    reflexivity.
Defined.

(** A new form, then the initialisation of the form with the sample
    default. *)
Lemma X14_witness :
  SubmissionObjectEffects.initForm_
    ([SubmissionObjectEffects.NewSubmissionFormAction (Js.Str "c1") (Js.Str "s1")] ++
     [SubmissionObjectEffects.InitSubmissionFormAction
        (Js.Str "c1") (Js.Str "s1") (Js.Str "B")]) [] =
  ([SubmissionObjectEffects.CompleteInitSubmissionFormAction],
   [SubmissionObjectEffects.LoadDefaultSections
      (Js.Str "c1") (Js.Str "s1") (Js.Str "B")]).
Proof.
  pose proof (X14_initForm_one_call_per_action
                [SubmissionObjectEffects.NewSubmissionFormAction
                   (Js.Str "c1") (Js.Str "s1")]
                [SubmissionObjectEffects.InitSubmissionFormAction
                   (Js.Str "c1") (Js.Str "s1") (Js.Str "B")] []) as Hx.
  destruct (SubmissionObjectEffects.initForm_ _ _) as [delivered calls'].
  cbn in Hx. destruct Hx as ((-> & ->) & _ & Hinit & _).
  destruct (Hinit (Js.Str "c1") (Js.Str "s1") (Js.Str "B") eq_refl) as [_ ->].
  reflexivity.
Defined.

(** The change records still name collection [c1]; the form has meanwhile
    chosen [c2]. *)
Lemma X15_witness :
  dispatched
    (exec (ngOnChanges
             {[ "collectionId" := sample_change Js.Undefined (Js.Str "c1");
                "submissionId" := sample_change Js.Undefined (Js.Str "s1") ]})
       (exec (onCollectionChange (Js.Str "c2")) sample_bound)) =
  [NewSubmissionFormAction (Js.Str "c2") (Js.Str "s1")].
Proof.
  apply (X15_chosen_collection_is_dispatched sample_bound (Js.Str "c2")
           {[ "collectionId" := sample_change Js.Undefined (Js.Str "c1");
              "submissionId" := sample_change Js.Undefined (Js.Str "s1") ]}
           (sample_change Js.Undefined (Js.Str "c1"))
           (sample_change Js.Undefined (Js.Str "s1")));
    reflexivity.
Defined.

End SubmissionBootstrapSpec.
